(** * Chain serializers of the safe config service

    A shallow embedding of [src/chains/serializers.py]: the serializers that
    turn [Chain], [GasPrice], [Wallet] and [Feature] records into the
    client-facing JSON objects, and the properties of their output.

    The serializers are declarative: a class lists named fields, each with a
    [source] attribute, an optional [default] and a field kind, and the
    framework's [Serializer.to_representation] walks that list.  The
    embedding keeps the declarations as data and interprets them with a small
    engine, so that every definition below can be compared with the class it
    comes from.  Code that can raise or could touch the instance runs in a
    state-and-error monad over the instance. *)

From Stdlib Require Import String Ascii ZArith List Bool Lia.
From Stdlib Require Import Sorting.Sorted Sorting.Permutation.
From Stdlib Require Import DecimalString.
From Stdlib Require DecimalZ.
Import ListNotations.

Local Open Scope string_scope.
Local Open Scope Z_scope.

(* ------------------------------------------------------------------ *)
(** ** Python values and JSON output *)

(** A [decimal.Decimal]: a finite number, [coefficient * 10 ^ exponent]
    with its sign, an infinity, or a NaN, quiet or signaling, with its
    payload. *)
Inductive Decimal :=
| Finite (negative : bool) (coefficient : N) (exponent : Z)
| Infinity (negative : bool)
| NaN (negative signaling : bool) (payload : N).

(** The attribute values the serializers read. *)
Inductive PyVal :=
| PNone
| PBool (b : bool)
| PInt (z : Z)
| PStr (s : string)
| PDecimal (d : Decimal).

(** The rendered output ([ReturnDict] keeps the declaration order, hence an
    association list).  [JDecimal (Some p) d] is the framework's rendering
    of the decimal [d] quantized to [p] decimal places, [JDecimal None d]
    the decimal as it is. *)
#[warnings="-register-all"]
Inductive Json :=
| JNull
| JBool (b : bool)
| JInt (z : Z)
| JStr (s : string)
| JDecimal (decimal_places : option nat) (d : Decimal)
| JList (items : list Json)
| JObj (members : list (string * Json)).

(** [str(z)] for a Python [int]. *)
Definition str_int (z : Z) : string := NilZero.string_of_int (Z.to_int z).

(** The decimal digits of a natural number. *)
Definition str_N (n : N) : string := NilZero.string_of_uint (N.to_uint n).

Fixpoint zeros (n : nat) : string :=
  match n with
  | O => ""
  | S k => String "0" (zeros k)
  end.

Definition sign_prefix (negative : bool) : string :=
  if negative then "-" else "".

(** ["%+d" % z] *)
Definition str_signed (z : Z) : string :=
  if z <? 0 then str_int z else "+" ++ str_int z.

(** [str(d)] for a [Decimal]: the number written out when its exponent is
    at most zero and it has fewer than six leading zeros after the point,
    otherwise in scientific notation. *)
Definition str_decimal (d : Decimal) : string :=
  match d with
  | Infinity s => sign_prefix s ++ "Infinity"
  | NaN s signaling payload =>
      sign_prefix s ++ (if signaling then "sNaN" else "NaN")
        ++ (if (payload =? 0)%N then "" else str_N payload)
  | Finite s c e =>
      let digits := str_N c in
      let n := Z.of_nat (String.length digits) in
      let leftdigits := e + n in
      let dotplace :=
        if (e <=? 0) && (-6 <? leftdigits) then leftdigits else 1 in
      let intpart :=
        if dotplace <=? 0 then "0"
        else if n <=? dotplace
             then digits ++ zeros (Z.to_nat (dotplace - n))
             else substring 0 (Z.to_nat dotplace) digits in
      let fracpart :=
        if dotplace <=? 0
        then "." ++ zeros (Z.to_nat (- dotplace)) ++ digits
        else if n <=? dotplace then ""
             else "." ++ substring (Z.to_nat dotplace)
                                   (Z.to_nat (n - dotplace)) digits in
      let exp :=
        if leftdigits =? dotplace then ""
        else "E" ++ str_signed (leftdigits - dotplace) in
      sign_prefix s ++ intpart ++ fracpart ++ exp
  end.

(** [Decimal.quantize] to [places] decimal places under the default
    rounding, half to even: the coefficient of the result. *)
Definition rescale_half_even (c : N) (e : Z) (places : nat) : N :=
  let shift := e + Z.of_nat places in
  if 0 <=? shift then (c * 10 ^ Z.to_N shift)%N
  else
    let unit := (10 ^ Z.to_N (- shift))%N in
    let q := (c / unit)%N in
    let r := (c mod unit)%N in
    match (2 * r ?= unit)%N with
    | Lt => q
    | Gt => (q + 1)%N
    | Eq => if N.even q then q else (q + 1)%N
    end.

(** Whether [quantize] to [places] places succeeds in a context of
    precision [max_digits]: zero and a quiet NaN always do, an infinity
    and a signaling NaN never, and another number when the rounded
    coefficient has at most [max_digits] digits. *)
Definition quantizes (max_digits places : nat) (d : Decimal) : bool :=
  match d with
  | Finite _ c e =>
      (c =? 0)%N
      || (rescale_half_even c e places <? 10 ^ N.of_nat max_digits)%N
  | Infinity _ => false
  | NaN _ signaling _ => negb signaling
  end.
Arguments quantizes : simpl never.

(** [int(d)]: the integer part, towards zero ([None] for an infinity or a
    NaN). *)
Definition int_of_decimal (d : Decimal) : option Z :=
  match d with
  | Finite s c e =>
      let magnitude :=
        if 0 <=? e then (c * 10 ^ Z.to_N e)%N
        else (c / 10 ^ Z.to_N (- e))%N in
      Some (if s then - Z.of_N magnitude else Z.of_N magnitude)
  | _ => None
  end.

(** *** Reading numbers from strings

    Strings are sequences of characters below 256. *)

(** The characters [str.strip()] and [Decimal()] take for white space, and
    the fewer ones [int()] does. *)
Definition is_space (a : ascii) : bool :=
  existsb (N.eqb (N_of_ascii a))
          [9; 10; 11; 12; 13; 28; 29; 30; 31; 32; 133; 160]%N.

Definition is_int_space (a : ascii) : bool :=
  existsb (N.eqb (N_of_ascii a)) [9; 10; 11; 12; 13; 32; 133; 160]%N.

Definition is_digit (a : ascii) : bool :=
  let n := N_of_ascii a in ((48 <=? n) && (n <=? 57))%N.

Fixpoint lstrip (space : ascii -> bool) (s : string) : string :=
  match s with
  | String a rest => if space a then lstrip space rest else s
  | EmptyString => EmptyString
  end.

Fixpoint rstrip (space : ascii -> bool) (s : string) : string :=
  match s with
  | String a rest =>
      match rstrip space rest with
      | EmptyString => if space a then EmptyString else String a EmptyString
      | rest' => String a rest'
      end
  | EmptyString => EmptyString
  end.

(** [s.strip()] *)
Definition strip (s : string) : string :=
  rstrip is_space (lstrip is_space s).

Fixpoint all_digits (s : string) : bool :=
  match s with
  | String a rest => is_digit a && all_digits rest
  | EmptyString => true
  end.

(** The number a string of digits denotes (zero for the empty string). *)
Definition N_of_digits (s : string) : N :=
  match NilEmpty.uint_of_string s with
  | Some d => N.of_uint d
  | None => 0%N
  end.

(** The digits of an [int()] literal, whose underscores stand singly
    between digits ([None] for anything else). *)
Fixpoint grouped_digits (after_digit : bool) (s : string) : option string :=
  match s with
  | String a rest =>
      if is_digit a then option_map (String a) (grouped_digits true rest)
      else if (a =? "_")%char && after_digit then grouped_digits false rest
      else None
  | EmptyString => if after_digit then Some EmptyString else None
  end.

(** [int(s)] for a string: white space around, an optional sign, digits. *)
Definition int_of_str (s : string) : option Z :=
  let signed negative body :=
    match grouped_digits false body with
    | Some digits =>
        Some (if negative : bool then - Z.of_N (N_of_digits digits)
              else Z.of_N (N_of_digits digits))
    | None => None
    end in
  match rstrip is_int_space (lstrip is_int_space s) with
  | String a rest =>
      if (a =? "-")%char then signed true rest
      else if (a =? "+")%char then signed false rest
      else signed false (String a rest)
  | EmptyString => None
  end.

Fixpoint remove_underscores (s : string) : string :=
  match s with
  | String a rest =>
      if (a =? "_")%char then remove_underscores rest
      else String a (remove_underscores rest)
  | EmptyString => EmptyString
  end.

(** An ASCII letter in lower case, anything else as it is. *)
Definition lower (a : ascii) : ascii :=
  let n := N_of_ascii a in
  if ((65 <=? n) && (n <=? 90))%N then ascii_of_N (n + 32) else a.

Fixpoint lower_str (s : string) : string :=
  match s with
  | String a rest => String (lower a) (lower_str rest)
  | EmptyString => EmptyString
  end.

(** The string up to the first character that passes the test, and the
    string after that character when there is one. *)
Fixpoint split_at (test : ascii -> bool) (s : string)
  : string * option string :=
  match s with
  | String a rest =>
      if test a then (EmptyString, Some rest)
      else let (before, after) := split_at test rest in
           (String a before, after)
  | EmptyString => (EmptyString, None)
  end.

(** An exponent: an optional sign and at least one digit. *)
Definition exponent_of_str (s : string) : option Z :=
  let digits negative body :=
    match body with
    | EmptyString => None
    | _ =>
        if all_digits body
        then Some (if negative : bool then - Z.of_N (N_of_digits body)
                   else Z.of_N (N_of_digits body))
        else None
    end in
  match s with
  | String a rest =>
      if (a =? "-")%char then digits true rest
      else if (a =? "+")%char then digits false rest
      else digits false s
  | EmptyString => None
  end.

(** A number with at least one digit: digits, an optional point and more
    digits, an optional exponent. *)
Definition number_of_str (negative : bool) (s : string) : option Decimal :=
  let (mantissa, exp) := split_at (fun a => (lower a =? "e")%char) s in
  let (intpart, frac) := split_at (fun a => (a =? ".")%char) mantissa in
  let fracpart := match frac with Some f => f | None => EmptyString end in
  let e :=
    match exp with
    | Some x => exponent_of_str x
    | None => Some 0
    end in
  match e with
  | Some e =>
      if all_digits intpart && all_digits fracpart
         && negb ((intpart ++ fracpart) =? "")%string
      then Some (Finite negative (N_of_digits (intpart ++ fracpart))
                        (e - Z.of_nat (String.length fracpart)))
      else None
  | None => None
  end.

(** [Decimal(s)] for a string: white space around and underscores are
    dropped; a sign, then a number, an infinity or a NaN with its payload,
    in either case of the letters ([None] for anything else). *)
Definition decimal_of_str (s : string) : option Decimal :=
  let unsigned negative body :=
    let word := lower_str body in
    if ((word =? "inf") || (word =? "infinity"))%string
    then Some (Infinity negative)
    else if prefix "nan" word
    then let payload := substring 3 (String.length word - 3) word in
         if all_digits payload
         then Some (NaN negative false (N_of_digits payload)) else None
    else if prefix "snan" word
    then let payload := substring 4 (String.length word - 4) word in
         if all_digits payload
         then Some (NaN negative true (N_of_digits payload)) else None
    else number_of_str negative body in
  match remove_underscores (strip s) with
  | String a rest =>
      if (a =? "-")%char then unsigned true rest
      else if (a =? "+")%char then unsigned false rest
      else unsigned false (String a rest)
  | EmptyString => None
  end.

(** [str(v)]. *)
Definition py_str (v : PyVal) : string :=
  match v with
  | PNone => "None"
  | PBool true => "True"
  | PBool false => "False"
  | PInt z => str_int z
  | PStr s => s
  | PDecimal d => str_decimal d
  end.

(** Python truthiness, [bool(v)]. *)
Class Truthy (A : Type) := truthy : A -> bool.

#[global] Instance Truthy_string : Truthy string :=
  fun s => negb (s =? "")%string.
#[global] Instance Truthy_Z : Truthy Z := fun z => negb (z =? 0).
#[global] Instance Truthy_bool : Truthy bool := fun b => b.
#[global] Instance Truthy_option {A} `{Truthy A} : Truthy (option A) :=
  fun o => match o with Some a => truthy a | None => false end.

(** [o is None]. *)
Definition is_None {A} (o : option A) : bool :=
  match o with None => true | Some _ => false end.

(** Typed attributes seen as Python values; a nullable attribute is an
    [option], with [None] for Python's [None]. *)
Class ToPy (A : Type) := to_py : A -> PyVal.

#[global] Instance ToPy_string : ToPy string := PStr.
#[global] Instance ToPy_Z : ToPy Z := PInt.
#[global] Instance ToPy_bool : ToPy bool := PBool.
#[global] Instance ToPy_Decimal : ToPy Decimal := PDecimal.
#[global] Instance ToPy_option {A} `{ToPy A} : ToPy (option A) :=
  fun o => match o with Some a => to_py a | None => PNone end.

(** A value passed through unchanged. *)
Definition py_to_json (v : PyVal) : Json :=
  match v with
  | PNone => JNull
  | PBool b => JBool b
  | PInt z => JInt z
  | PStr s => JStr s
  | PDecimal d => JDecimal None d
  end.

(* ------------------------------------------------------------------ *)
(** ** Exceptions and the serializer monad *)

Inductive Exn :=
| APIException (detail : string)
| AttributeError (name : string)
| ValueError (field : string)
| TypeError (field : string)
| OverflowError (field : string)
| InvalidOperation.

Inductive Result (A : Type) :=
| Ok (a : A)
| Raise (e : Exn).
Arguments Ok {A} a.
Arguments Raise {A} e.

(** A computation over an instance of type [S]: it returns or raises, and
    hands back the instance as it left it. *)
Definition M (S A : Type) : Type := S -> Result A * S.

Definition ret {S A} (a : A) : M S A := fun s => (Ok a, s).

Definition bind {S A B} (m : M S A) (k : A -> M S B) : M S B :=
  fun s =>
    match m s with
    | (Ok a, s') => k a s'
    | (Raise e, s') => (Raise e, s')
    end.

Definition raise {S A} (e : Exn) : M S A := fun s => (Raise e, s).

(** [instance.attr]: an attribute read. *)
Definition attr {S A} (proj : S -> A) : M S A := fun s => (Ok (proj s), s).

Definition lift {S A} (r : Result A) : M S A := fun s => (r, s).

Declare Scope ser_scope.
Delimit Scope ser_scope with ser.
Notation "x <- m ;; k" := (bind m (fun x => k))
  (at level 61, m at next level, right associativity) : ser_scope.
Local Open Scope ser_scope.

(** [a and b] on conditions: [b] is evaluated only when [a] holds. *)
Definition py_and {S} (a b : M S bool) : M S bool :=
  x <- a ;; if x then b else ret false.

(** The value a computation returns on an instance, and the instance after. *)
Definition eval {S A} (m : M S A) (s : S) : Result A := fst (m s).
Definition exec {S A} (m : M S A) (s : S) : S := snd (m s).

(** A computation on each item of a list, in order; the first exception
    stops it.  The items are handed back as the computation left them. *)
Fixpoint for_each {T A} (child : M T A) (items : list T)
  : Result (list A) * list T :=
  match items with
  | [] => (Ok [], [])
  | x :: rest =>
      match child x with
      | (Ok a, x') =>
          match for_each child rest with
          | (Ok l, rest') => (Ok (a :: l), x' :: rest')
          | (Raise e, rest') => (Raise e, x' :: rest')
          end
      | (Raise e, x') => (Raise e, x' :: rest)
      end
  end.

(* ------------------------------------------------------------------ *)
(** ** Declared fields and the framework's [Serializer] *)

Inductive FieldKind :=
| ReadOnlyField
| CharField
| URLField
| IntegerField
| DecimalField (max_digits decimal_places : nat)
| ImageField (use_url : bool)
| EthereumAddressField
| ModelField.

(** A declared field: [name = Kind(source=..., default=...)].  [source]
    defaults to the field's name; [default = None] here is the framework's
    [empty], and [Some PNone] a declared [default=None]. *)
Record Field := mkField {
  field_name : string;
  source : string;
  default : option PyVal;
  kind : FieldKind
}.

(** A model class: its instances answer attribute lookups by name
    ([None]: the instance has no such attribute). *)
Class Model (T : Type) := getattr : T -> string -> option PyVal.

Fixpoint assoc {A} (k : string) (l : list (string * A)) : option A :=
  match l with
  | [] => None
  | (k', v) :: rest => if (k =? k')%string then Some v else assoc k rest
  end.

(** [Field.get_attribute]: the source attribute; when the lookup fails the
    declared default, and with no default the lookup error. *)
Definition get_attribute {T} `{Model T} (f : Field) : M T PyVal :=
  fun obj =>
    match getattr obj (source f) with
    | Some v => (Ok v, obj)
    | None =>
        match default f with
        | Some d => (Ok d, obj)
        | None => (Raise (AttributeError (source f)), obj)
        end
    end.

(** [int(value)], what an integer field returns. *)
Definition py_int (f : string) (v : PyVal) : Result Z :=
  match v with
  | PInt z => Ok z
  | PBool b => Ok (if b then 1 else 0)
  | PStr s =>
      match int_of_str s with
      | Some z => Ok z
      | None => Raise (ValueError f)
      end
  | PDecimal d =>
      match d with
      | Finite _ _ _ =>
          match int_of_decimal d with
          | Some z => Ok z
          | None => Raise (ValueError f)
          end
      | Infinity _ => Raise (OverflowError f)
      | NaN _ _ _ => Raise (ValueError f)
      end
  | PNone => Raise (TypeError f)
  end.

(** The decimal a decimal field works on: the value when it is a
    [Decimal], and [Decimal(str(value).strip())] otherwise. *)
Definition py_decimal (v : PyVal) : Result Decimal :=
  match v with
  | PDecimal d => Ok d
  | _ =>
      match decimal_of_str (strip (py_str v)) with
      | Some d => Ok d
      | None => Raise InvalidOperation
      end
  end.

(** [field.to_representation(value)] for a value that is not [None].  A
    decimal field quantizes the value to its [decimal_places] in a context
    whose precision is its [max_digits]: [decimal.InvalidOperation] when
    the result does not fit.  An image field is given the URL of its
    file. *)
Definition field_to_representation (f : Field) (v : PyVal) : Result Json :=
  match kind f with
  | ReadOnlyField => Ok (py_to_json v)
  | CharField | URLField => Ok (JStr (py_str v))
  | IntegerField =>
      match py_int (field_name f) v with
      | Ok z => Ok (JInt z)
      | Raise e => Raise e
      end
  | DecimalField max_digits places =>
      match py_decimal v with
      | Ok d =>
          if quantizes max_digits places d
          then Ok (JDecimal (Some places) d)
          else Raise InvalidOperation
      | Raise e => Raise e
      end
  | ImageField _ => Ok (py_to_json v)
  | EthereumAddressField => Ok (py_to_json v)
  | ModelField => Ok (py_to_json v)
  end.

(** A member of a serializer class: a declared field, or a
    [SerializerMethodField] bound to the method it calls on the instance. *)
Inductive Member (T : Type) :=
| Declared (f : Field)
| Method (name : string) (method : M T Json).
Arguments Declared {T} f.
Arguments Method {T} name method.

Definition member_name {T} (m : Member T) : string :=
  match m with
  | Declared f => field_name f
  | Method name _ => name
  end.

(** One step of [Serializer.to_representation]: the attribute is fetched,
    [None] is rendered as null, anything else by the field. *)
Definition represent_member {T} `{Model T} (m : Member T)
  : M T (string * Json) :=
  match m with
  | Declared f =>
      v <- get_attribute f ;;
      match v with
      | PNone => ret (field_name f, JNull)
      | _ => j <- lift (field_to_representation f v) ;; ret (field_name f, j)
      end
  | Method name method => j <- method ;; ret (name, j)
  end.

Fixpoint represent_members {T} `{Model T} (ms : list (Member T))
  : M T (list (string * Json)) :=
  match ms with
  | [] => ret []
  | m :: rest =>
      kv <- represent_member m ;;
      kvs <- represent_members rest ;;
      ret (kv :: kvs)
  end.

(** [Serializer(instance).data] for a declarative serializer. *)
Definition Serializer_data {T} `{Model T} (ms : list (Member T)) : M T Json :=
  kvs <- represent_members ms ;; ret (JObj kvs).

(* ------------------------------------------------------------------ *)
(** ** The models *)

(** The models module ([Chain], [GasPrice], [Wallet], [Feature]) is not
    among the sources; the spec describes its classes as externally defined
    persistent records.  Each record below lists the attributes the
    serializers read, typed after the field that renders them: a URL or
    character field holds a string, the wei value, the rank and the chain
    id an integer, and an attribute that may be unset is an [option]. *)

(** Modelled from the spec: the [Chain] a gas price record refers to, as far
    as [GasPriceSerializer] uses it (the class and its [__str__] are in the
    absent models module): its primary key and its rendering by [str()],
    which the spec calls the chain identifier reported by the exception. *)
Record ChainRef := mkChainRef { chain_pk : Z; chain_str : string }.

Module GasPrice.
(** Modelled from the spec: the [GasPrice] model class, absent from the
    sources; a gas price policy of a chain, with an oracle or a fixed
    value. *)
Record t := mk {
  chain : ChainRef;
  oracle_uri : option string;
  oracle_parameter : option string;
  gwei_factor : Decimal;
  fixed_wei_value : option Z;
  rank : Z
}.

(** The attributes open to lookup by name. *)
Definition attrs (g : t) : list (string * PyVal) :=
  [ ("oracle_uri", to_py (oracle_uri g));
    ("oracle_parameter", to_py (oracle_parameter g));
    ("gwei_factor", to_py (gwei_factor g));
    ("fixed_wei_value", to_py (fixed_wei_value g));
    ("rank", to_py (rank g)) ].

#[global] Instance model : Model t := fun g name => assoc name (attrs g).
End GasPrice.

Module Wallet.
(** Modelled from the spec: the [Wallet] model class, absent from the
    sources; the serializer reads its key. *)
Record t := mk { key : string }.
#[global] Instance model : Model t :=
  fun w name => assoc name [("key", to_py (key w))].
End Wallet.

Module Feature.
(** Modelled from the spec: the [Feature] model class, absent from the
    sources; the serializer reads its key. *)
Record t := mk { key : string }.
#[global] Instance model : Model t :=
  fun f name => assoc name [("key", to_py (key f))].
End Feature.

Module Chain.
(** Modelled from the spec: the [Chain] model class, absent from the
    sources; a blockchain network configuration record. *)
Record t := mk {
  id : Z;
  name : string;
  short_name : string;
  description : string;
  l2 : bool;
  rpc_authentication : string;
  rpc_uri : string;
  safe_apps_rpc_authentication : string;
  safe_apps_rpc_uri : string;
  block_explorer_uri_address_template : string;
  block_explorer_uri_tx_hash_template : string;
  block_explorer_uri_api_template : string;
  currency_name : string;
  currency_symbol : string;
  currency_decimals : Z;
  (** the URL of the stored logo, [None] when no file is attached *)
  currency_logo_uri : option string;
  transaction_service_uri : option string;
  vpc_transaction_service_uri : option string;
  theme_text_color : string;
  theme_background_color : string;
  ens_registry_address : option string;
  recommended_master_copy_version : string;
  (** the related records, as the queries of the serializer find them:
      [gasprice_set.all()], [get_disabled_wallets()], [feature_set.all()] *)
  gasprice_set : list GasPrice.t;
  get_disabled_wallets : list Wallet.t;
  feature_set : list Feature.t
}.

Definition attrs (c : t) : list (string * PyVal) :=
  [ ("id", to_py (id c));
    ("name", to_py (name c));
    ("short_name", to_py (short_name c));
    ("description", to_py (description c));
    ("l2", to_py (l2 c));
    ("rpc_authentication", to_py (rpc_authentication c));
    ("rpc_uri", to_py (rpc_uri c));
    ("safe_apps_rpc_authentication", to_py (safe_apps_rpc_authentication c));
    ("safe_apps_rpc_uri", to_py (safe_apps_rpc_uri c));
    ("block_explorer_uri_address_template",
      to_py (block_explorer_uri_address_template c));
    ("block_explorer_uri_tx_hash_template",
      to_py (block_explorer_uri_tx_hash_template c));
    ("block_explorer_uri_api_template",
      to_py (block_explorer_uri_api_template c));
    ("currency_name", to_py (currency_name c));
    ("currency_symbol", to_py (currency_symbol c));
    ("currency_decimals", to_py (currency_decimals c));
    ("currency_logo_uri", to_py (currency_logo_uri c));
    ("transaction_service_uri", to_py (transaction_service_uri c));
    ("vpc_transaction_service_uri", to_py (vpc_transaction_service_uri c));
    ("theme_text_color", to_py (theme_text_color c));
    ("theme_background_color", to_py (theme_background_color c));
    ("ens_registry_address", to_py (ens_registry_address c));
    ("recommended_master_copy_version",
      to_py (recommended_master_copy_version c)) ].

#[global] Instance model : Model t := fun c name => assoc name (attrs c).
End Chain.

(** [queryset.order_by(field)]: the records in ascending order of the
    field, records with equal values in the order the query found them. *)
Section OrderBy.
Context {A K : Type} (field : A -> K) (leb : K -> K -> bool).

Fixpoint insert_by (x : A) (l : list A) : list A :=
  match l with
  | [] => [x]
  | y :: rest =>
      if leb (field x) (field y) then x :: l else y :: insert_by x rest
  end.

Fixpoint order_by (l : list A) : list A :=
  match l with
  | [] => []
  | x :: rest => insert_by x (order_by rest)
  end.
End OrderBy.

(** [Serializer(queryset, many=True).data]: the child's representation of
    each record of the query, in the query's order.  The records are the
    query's own copies. *)
Definition many {S T} (child : M T Json) (queryset : list T) : M S Json :=
  fun s =>
    match fst (for_each child queryset) with
    | Ok l => (Ok (JList l), s)
    | Raise e => (Raise e, s)
    end.

(* ------------------------------------------------------------------ *)
(** ** Gas price serializers *)

Module GasPriceOracleSerializer.
Definition type := mkField "type" "type" (Some (PStr "oracle")) ReadOnlyField.
Definition uri := mkField "uri" "oracle_uri" None URLField.
Definition gas_parameter :=
  mkField "gas_parameter" "oracle_parameter" None CharField.
Definition gwei_factor :=
  mkField "gwei_factor" "gwei_factor" None (DecimalField 19 9).

Definition fields : list (Member GasPrice.t) :=
  [Declared type; Declared uri; Declared gas_parameter; Declared gwei_factor].

Definition data : M GasPrice.t Json := Serializer_data fields.
End GasPriceOracleSerializer.

Module GasPriceFixedSerializer.
Definition type := mkField "type" "type" (Some (PStr "fixed")) ReadOnlyField.
Definition wei_value := mkField "wei_value" "fixed_wei_value" None CharField.

Definition fields : list (Member GasPrice.t) :=
  [Declared type; Declared wei_value].

Definition data : M GasPrice.t Json := Serializer_data fields.
End GasPriceFixedSerializer.

Module GasPriceSerializer.
Definition not_provided (c : ChainRef) : string :=
  "The gas price oracle or a fixed gas price was not provided for chain "
    ++ chain_str c.

(** [instance.oracle_uri and instance.fixed_wei_value is None] *)
Definition oracle_guard : M GasPrice.t bool :=
  py_and (o <- attr GasPrice.oracle_uri ;; ret (truthy o))
         (f <- attr GasPrice.fixed_wei_value ;; ret (is_None f)).

(** [instance.fixed_wei_value and instance.oracle_uri is None] *)
Definition fixed_guard : M GasPrice.t bool :=
  py_and (f <- attr GasPrice.fixed_wei_value ;; ret (truthy f))
         (o <- attr GasPrice.oracle_uri ;; ret (is_None o)).

Definition to_representation : M GasPrice.t Json :=
  is_oracle <- oracle_guard ;;
  if is_oracle then GasPriceOracleSerializer.data
  else
    is_fixed <- fixed_guard ;;
    if is_fixed then GasPriceFixedSerializer.data
    else
      c <- attr GasPrice.chain ;;
      raise (APIException (not_provided c)).
End GasPriceSerializer.


(* ------------------------------------------------------------------ *)
(** ** Chain serializers *)

Module ThemeSerializer.
Definition text_color :=
  mkField "text_color" "theme_text_color" None CharField.
Definition background_color :=
  mkField "background_color" "theme_background_color" None CharField.

Definition fields : list (Member Chain.t) :=
  [Declared text_color; Declared background_color].

Definition data : M Chain.t Json := Serializer_data fields.
End ThemeSerializer.

Module CurrencySerializer.
Definition name := mkField "name" "currency_name" None CharField.
Definition symbol := mkField "symbol" "currency_symbol" None CharField.
Definition decimals :=
  mkField "decimals" "currency_decimals" None IntegerField.
Definition logo_uri :=
  mkField "logo_uri" "currency_logo_uri" None (ImageField true).

Definition fields : list (Member Chain.t) :=
  [Declared name; Declared symbol; Declared decimals; Declared logo_uri].

Definition data : M Chain.t Json := Serializer_data fields.
End CurrencySerializer.

Module BaseRpcUriSerializer.
Section Abstract.
(** the two abstract methods *)
Variables get_authentication get_rpc_value : M Chain.t Json.

Definition fields : list (Member Chain.t) :=
  [Method "authentication" get_authentication;
   Method "value" get_rpc_value].

Definition data : M Chain.t Json := Serializer_data fields.
End Abstract.
End BaseRpcUriSerializer.

Module RpcUriSerializer.
Definition get_authentication : M Chain.t Json :=
  a <- attr Chain.rpc_authentication ;; ret (JStr a).
Definition get_rpc_value : M Chain.t Json :=
  u <- attr Chain.rpc_uri ;; ret (JStr u).

Definition data : M Chain.t Json :=
  BaseRpcUriSerializer.data get_authentication get_rpc_value.
End RpcUriSerializer.

Module SafeAppsRpcUriSerializer.
Definition get_authentication : M Chain.t Json :=
  a <- attr Chain.safe_apps_rpc_authentication ;; ret (JStr a).
Definition get_rpc_value : M Chain.t Json :=
  u <- attr Chain.safe_apps_rpc_uri ;; ret (JStr u).

Definition data : M Chain.t Json :=
  BaseRpcUriSerializer.data get_authentication get_rpc_value.
End SafeAppsRpcUriSerializer.

Module BlockExplorerUriTemplateSerializer.
Definition address :=
  mkField "address" "block_explorer_uri_address_template" None URLField.
Definition tx_hash :=
  mkField "tx_hash" "block_explorer_uri_tx_hash_template" None URLField.
Definition api :=
  mkField "api" "block_explorer_uri_api_template" None URLField.

Definition fields : list (Member Chain.t) :=
  [Declared address; Declared tx_hash; Declared api].

Definition data : M Chain.t Json := Serializer_data fields.
End BlockExplorerUriTemplateSerializer.

Module FeatureSerializer.
Definition to_representation : M Feature.t Json :=
  k <- attr Feature.key ;; ret (JStr k).
End FeatureSerializer.

Module WalletSerializer.
Definition to_representation : M Wallet.t Json :=
  k <- attr Wallet.key ;; ret (JStr k).
End WalletSerializer.

Module ChainSerializer.
Definition chain_id := mkField "chain_id" "id" None CharField.
Definition chain_name := mkField "chain_name" "name" None CharField.
Definition short_name := mkField "short_name" "short_name" None CharField.
Definition transaction_service :=
  mkField "transaction_service" "transaction_service_uri" (Some PNone)
          URLField.
Definition vpc_transaction_service :=
  mkField "vpc_transaction_service" "vpc_transaction_service_uri" None
          URLField.
Definition ens_registry_address :=
  mkField "ens_registry_address" "ens_registry_address" None
          EthereumAddressField.

Definition get_native_currency : M Chain.t Json := CurrencySerializer.data.
Definition get_theme : M Chain.t Json := ThemeSerializer.data.
Definition get_safe_apps_rpc_uri : M Chain.t Json :=
  SafeAppsRpcUriSerializer.data.
Definition get_rpc_uri : M Chain.t Json := RpcUriSerializer.data.
Definition get_block_explorer_uri_template : M Chain.t Json :=
  BlockExplorerUriTemplateSerializer.data.

Definition get_gas_price : M Chain.t Json :=
  ranked_gas_prices <-
    attr (fun instance =>
            order_by GasPrice.rank Z.leb (Chain.gasprice_set instance)) ;;
  many GasPriceSerializer.to_representation ranked_gas_prices.

Definition get_disabled_wallets : M Chain.t Json :=
  disabled_wallets <-
    attr (fun instance =>
            order_by Wallet.key String.leb
                     (Chain.get_disabled_wallets instance)) ;;
  many WalletSerializer.to_representation disabled_wallets.

Definition get_features : M Chain.t Json :=
  enabled_features <-
    attr (fun instance =>
            order_by Feature.key String.leb (Chain.feature_set instance)) ;;
  many FeatureSerializer.to_representation enabled_features.

(** The members the class body declares, in its order. *)
Definition declared : list (Member Chain.t) :=
  [ Declared chain_id;
    Declared chain_name;
    Declared short_name;
    Method "rpc_uri" get_rpc_uri;
    Method "safe_apps_rpc_uri" get_safe_apps_rpc_uri;
    Method "block_explorer_uri_template" get_block_explorer_uri_template;
    Method "native_currency" get_native_currency;
    Declared transaction_service;
    Declared vpc_transaction_service;
    Method "theme" get_theme;
    Method "gas_price" get_gas_price;
    Declared ens_registry_address;
    Method "disabled_wallets" get_disabled_wallets;
    Method "features" get_features ].

Module Meta.
Definition fields : list string :=
  [ "chain_id";
    "chain_name";
    "short_name";
    "description";
    "l2";
    "rpc_uri";
    "safe_apps_rpc_uri";
    "block_explorer_uri_template";
    "native_currency";
    "transaction_service";
    "vpc_transaction_service";
    "theme";
    "gas_price";
    "ens_registry_address";
    "recommended_master_copy_version";
    "disabled_wallets";
    "features" ].
End Meta.

(** [ModelSerializer.get_fields]: for each name of [Meta.fields] the
    declared member of that name, and for a name the class does not
    declare the model's own field. *)
Definition get_fields : list (Member Chain.t) :=
  map (fun name =>
         match find (fun m => (member_name m =? name)%string) declared with
         | Some m => m
         | None => Declared (mkField name name None ModelField)
         end)
      Meta.fields.

Definition to_representation : M Chain.t Json := Serializer_data get_fields.
End ChainSerializer.

(* ------------------------------------------------------------------ *)
(** ** Vocabulary of the properties *)

(** The framework's empty values ([EMPTY_VALUES]: [None], the empty string
    and the empty containers) among the attribute values.  An attribute is
    populated when it holds anything else; a number, zero included, is a
    value. *)
Definition is_empty_value (v : PyVal) : bool :=
  match v with
  | PNone => true
  | PStr s => (s =? "")%string
  | _ => false
  end.

Definition populated {A} `{ToPy A} (a : A) : bool :=
  negb (is_empty_value (to_py a)).

(** The names of an object's members, in order ([None] for a value that is
    not an object), a member by name, and the names inside a member. *)
Definition object_keys (j : Json) : option (list string) :=
  match j with
  | JObj members => Some (map fst members)
  | _ => None
  end.

Definition member (k : string) (j : Json) : option Json :=
  match j with
  | JObj members => assoc k members
  | _ => None
  end.

Definition nested_keys (k : string) (j : Json) : option (list string) :=
  match member k j with
  | Some inner => object_keys inner
  | None => None
  end.

(** An object that is not a model instance: a dictionary of attributes. *)
#[global] Instance Model_dict : Model (list (string * PyVal)) :=
  fun d name => assoc name d.

(** Ascending order of a field under a boolean comparison. *)
Definition ascending {A K} (field : A -> K) (leb : K -> K -> bool)
  : A -> A -> Prop :=
  fun a b => leb (field a) (field b) = true.

(** A computation that hands the instance back as it received it. *)
Definition readonly {S A} (m : M S A) : Prop := forall s, exec m s = s.

Import GasPrice(oracle_uri, oracle_parameter, gwei_factor, fixed_wei_value).

(** What [GasPriceOracleSerializer] and [GasPriceFixedSerializer] render. *)
Definition oracle_object (g : GasPrice.t) : Json :=
  JObj [ ("type", JStr "oracle");
         ("uri", py_to_json (to_py (oracle_uri g)));
         ("gas_parameter", py_to_json (to_py (oracle_parameter g)));
         ("gwei_factor", JDecimal (Some 9%nat) (gwei_factor g)) ].

Definition fixed_object (g : GasPrice.t) : Json :=
  JObj [ ("type", JStr "fixed");
         ("wei_value",
           match fixed_wei_value g with
           | Some z => JStr (str_int z)
           | None => JNull
           end) ].

(** The array of keys of a query ordered by key. *)
Definition key_array {A} (key : A -> string) (records : list A) : Json :=
  JList (map (fun r => JStr (key r)) (order_by key String.leb records)).

(** The object a chain is rendered as, given its [gas_price] array. *)
Definition chain_object (c : Chain.t) (gas_price : Json) : Json :=
  JObj
    [ ("chain_id", JStr (str_int (Chain.id c)));
      ("chain_name", JStr (Chain.name c));
      ("short_name", JStr (Chain.short_name c));
      ("description", JStr (Chain.description c));
      ("l2", JBool (Chain.l2 c));
      ("rpc_uri",
        JObj [ ("authentication", JStr (Chain.rpc_authentication c));
               ("value", JStr (Chain.rpc_uri c)) ]);
      ("safe_apps_rpc_uri",
        JObj [ ("authentication", JStr (Chain.safe_apps_rpc_authentication c));
               ("value", JStr (Chain.safe_apps_rpc_uri c)) ]);
      ("block_explorer_uri_template",
        JObj [ ("address", JStr (Chain.block_explorer_uri_address_template c));
               ("tx_hash", JStr (Chain.block_explorer_uri_tx_hash_template c));
               ("api", JStr (Chain.block_explorer_uri_api_template c)) ]);
      ("native_currency",
        JObj [ ("name", JStr (Chain.currency_name c));
               ("symbol", JStr (Chain.currency_symbol c));
               ("decimals", JInt (Chain.currency_decimals c));
               ("logo_uri", py_to_json (to_py (Chain.currency_logo_uri c))) ]);
      ("transaction_service",
        py_to_json (to_py (Chain.transaction_service_uri c)));
      ("vpc_transaction_service",
        py_to_json (to_py (Chain.vpc_transaction_service_uri c)));
      ("theme",
        JObj [ ("text_color", JStr (Chain.theme_text_color c));
               ("background_color", JStr (Chain.theme_background_color c)) ]);
      ("gas_price", gas_price);
      ("ens_registry_address",
        py_to_json (to_py (Chain.ens_registry_address c)));
      ("recommended_master_copy_version",
        JStr (Chain.recommended_master_copy_version c));
      ("disabled_wallets", key_array Wallet.key (Chain.get_disabled_wallets c));
      ("features", key_array Feature.key (Chain.feature_set c)) ].

(** Sample records. *)
Definition rinkeby : ChainRef := mkChainRef 4 "Rinkeby".

Definition one : Decimal := Finite false 1000000000 (-9).

Definition oracle_price : GasPrice.t :=
  GasPrice.mk rinkeby (Some "https://gas.example/api") (Some "fast")
              one None 100.

Definition fixed_price : GasPrice.t :=
  GasPrice.mk rinkeby None None one (Some 1000000000) 50.

Definition zero_price : GasPrice.t :=
  GasPrice.mk rinkeby None None one (Some 0) 100.

Definition blank_oracle_price : GasPrice.t :=
  GasPrice.mk rinkeby (Some "") None one (Some 1000000000) 100.

Definition out_of_range_price : GasPrice.t :=
  GasPrice.mk rinkeby (Some "https://gas.example/api") (Some "fast")
              (Finite false 12345678901 0) None 100.

Definition power_of_ten_price : GasPrice.t :=
  GasPrice.mk rinkeby (Some "https://gas.example/api") (Some "fast")
              (Finite false 1 10) None 100.

Definition both_price : GasPrice.t :=
  GasPrice.mk rinkeby (Some "https://gas.example/api") (Some "fast")
              one (Some 1000000000) 100.

Definition rinkeby_chain : Chain.t :=
  Chain.mk 4 "Rinkeby" "rin" "Test network" false
           "API_KEY_PATH" "https://rinkeby.example/v3/"
           "NO_AUTHENTICATION" "https://apps.rinkeby.example/"
           "https://scan.example/address/{{address}}"
           "https://scan.example/tx/{{txHash}}"
           "https://api.scan.example/api"
           "Ether" "ETH" 18 (Some "/media/chains/4/currency_logo.png")
           None None "#ffffff" "#e8673c" None "1.3.0"
           [oracle_price; fixed_price]
           [Wallet.mk "walletLink"; Wallet.mk "ledger"; Wallet.mk "trezor"]
           [Feature.mk "SAFE_APPS"; Feature.mk "ERC721"].

(** The two guards of [GasPriceSerializer.to_representation] on the
    attributes of a record, and the records one of them accepts. *)
Definition is_oracle (g : GasPrice.t) : bool :=
  truthy (oracle_uri g) && is_None (fixed_wei_value g).

Definition is_fixed (g : GasPrice.t) : bool :=
  truthy (fixed_wei_value g) && is_None (oracle_uri g).

Definition valid (g : GasPrice.t) : bool := is_oracle g || is_fixed g.

(** The records [GasPriceSerializer.to_representation] renders: those the
    fixed guard accepts, and those the oracle guard accepts whose
    [gwei_factor] the decimal field can quantize. *)
Definition renders (g : GasPrice.t) : bool :=
  if is_oracle g then quantizes 19 9 (gwei_factor g) else is_fixed g.

(** [int(s)] on a string of decimal digits with an optional minus sign, as
    a client reads a number back from a string member. *)
Definition parse_int (s : string) : option Z :=
  option_map Z.of_int (NilZero.int_of_string s).

(** More sample records. *)
Definition infinite_factor_price : GasPrice.t :=
  GasPrice.mk rinkeby (Some "https://gas.example/api") (Some "fast")
              (Infinity false) None 60.

Definition bare_oracle_price : GasPrice.t :=
  GasPrice.mk rinkeby (Some "https://gas.example/api") None one None 10.

Definition zero_with_oracle_price : GasPrice.t :=
  GasPrice.mk rinkeby (Some "https://gas.example/api") (Some "fast") one
              (Some 0) 20.

Definition max_uint256 : Z := 2 ^ 256 - 1.

Definition max_uint256_price : GasPrice.t :=
  GasPrice.mk rinkeby None None one (Some max_uint256) 1.

Definition with_related (gas_prices : list GasPrice.t)
           (wallets : list Wallet.t) (features : list Feature.t) : Chain.t :=
  Chain.mk 4 "Rinkeby" "rin" "Test network" false
           "API_KEY_PATH" "https://rinkeby.example/v3/"
           "NO_AUTHENTICATION" "https://apps.rinkeby.example/"
           "https://scan.example/address/{{address}}"
           "https://scan.example/tx/{{txHash}}"
           "https://api.scan.example/api"
           "Ether" "ETH" 18 None None None "#ffffff" "#e8673c" None "1.3.0"
           gas_prices wallets features.

(* ------------------------------------------------------------------ *)
(** ** The order of a query *)

Section OrderByFacts.
Context {A K : Type} (field : A -> K) (leb : K -> K -> bool).
Hypothesis leb_total : forall a b, leb a b = true \/ leb b a = true.
Hypothesis leb_trans :
  forall a b c, leb a b = true -> leb b c = true -> leb a c = true.

Lemma insert_by_Permutation x l :
  Permutation (x :: l) (insert_by field leb x l).
Proof.
  induction l as [|y rest IH]; simpl.
  - apply Permutation_refl.
  - destruct (leb (field x) (field y)).
    + apply Permutation_refl.
    + eapply perm_trans; [apply perm_swap|]. now apply perm_skip.
Qed.

Lemma order_by_Permutation l : Permutation l (order_by field leb l).
Proof.
  induction l as [|x rest IH]; simpl.
  - constructor.
  - eapply perm_trans; [|apply insert_by_Permutation]. now apply perm_skip.
Qed.

Lemma insert_by_sorted x l :
  StronglySorted (ascending field leb) l ->
  StronglySorted (ascending field leb) (insert_by field leb x l).
Proof.
  induction 1 as [|y rest Hrest IH Hall]; simpl.
  - repeat constructor.
  - destruct (leb (field x) (field y)) eqn:Hxy.
    + constructor.
      * now constructor.
      * constructor; [exact Hxy|].
        eapply Forall_impl; [|exact Hall].
        intros z Hyz. unfold ascending in *. eauto.
    + constructor; [exact IH|].
      assert (Hyx : ascending field leb y x).
      { unfold ascending.
        destruct (leb_total (field x) (field y)); congruence. }
      eapply Permutation_Forall; [apply insert_by_Permutation|].
      now constructor.
Qed.

Lemma order_by_sorted l :
  StronglySorted (ascending field leb) (order_by field leb l).
Proof.
  induction l as [|x rest IH]; simpl.
  - constructor.
  - now apply insert_by_sorted.
Qed.
End OrderByFacts.

(** [String.leb] is transitive. *)
Lemma ascii_compare_cases a b :
  (Ascii.compare a b = Eq /\ a = b)
  \/ (Ascii.compare a b = Lt /\ (N_of_ascii a < N_of_ascii b)%N)
  \/ (Ascii.compare a b = Gt /\ (N_of_ascii b < N_of_ascii a)%N).
Proof.
  unfold Ascii.compare.
  destruct (N.compare_spec (N_of_ascii a) (N_of_ascii b)) as [E|L|G].
  - left. split; [reflexivity|].
    rewrite <- (ascii_N_embedding a), <- (ascii_N_embedding b). now rewrite E.
  - right; left. now split.
  - right; right. now split.
Qed.

Lemma string_compare_refl s : String.compare s s = Eq.
Proof.
  induction s as [|a s IH]; simpl; [reflexivity|].
  destruct (ascii_compare_cases a a) as [[E _]|[[_ L]|[_ G]]];
    [now rewrite E | lia | lia].
Qed.

Lemma string_compare_Lt_trans s1 :
  forall s2 s3,
    String.compare s1 s2 = Lt -> String.compare s2 s3 = Lt ->
    String.compare s1 s3 = Lt.
Proof.
  induction s1 as [|a s1 IH]; intros [|b s2] [|c s3]; simpl;
    try discriminate; try reflexivity.
  destruct (ascii_compare_cases a b) as [[E1 Hab]|[[E1 L1]|[E1 G1]]];
    rewrite E1; try discriminate;
    destruct (ascii_compare_cases b c) as [[E2 Hbc]|[[E2 L2]|[E2 G2]]];
    rewrite E2; try discriminate;
    destruct (ascii_compare_cases a c) as [[E3 Hac]|[[E3 L3]|[E3 G3]]];
    rewrite E3; intros H12 H23; subst;
    try reflexivity; try lia; now apply (IH s2).
Qed.

Lemma string_leb_trans a b c :
  String.leb a b = true -> String.leb b c = true -> String.leb a c = true.
Proof.
  unfold String.leb.
  destruct (String.compare a b) eqn:Hab; try discriminate;
    destruct (String.compare b c) eqn:Hbc; try discriminate; intros _ _.
  - apply String.compare_eq_iff in Hab, Hbc. subst.
    now rewrite string_compare_refl.
  - apply String.compare_eq_iff in Hab. subst. now rewrite Hbc.
  - apply String.compare_eq_iff in Hbc. subst. now rewrite Hab.
  - now rewrite (string_compare_Lt_trans _ _ _ Hab Hbc).
Qed.

Lemma Z_leb_total a b : (a <=? b) = true \/ (b <=? a) = true.
Proof. destruct (Z.leb_spec a b), (Z.leb_spec b a); auto; lia. Qed.

Lemma Z_leb_trans a b c :
  (a <=? b) = true -> (b <=? c) = true -> (a <=? c) = true.
Proof. rewrite !Z.leb_le. lia. Qed.

(* ------------------------------------------------------------------ *)
(** ** Computations that leave the instance alone *)

Create HintDb readonly.

Lemma readonly_ret {S A} (a : A) : readonly (@ret S A a).
Proof. intro s. reflexivity. Qed.

Lemma readonly_raise {S A} (e : Exn) : readonly (@raise S A e).
Proof. intro s. reflexivity. Qed.

Lemma readonly_attr {S A} (proj : S -> A) : readonly (attr proj).
Proof. intro s. reflexivity. Qed.

Lemma readonly_lift {S A} (r : Result A) : readonly (@lift S A r).
Proof. intro s. reflexivity. Qed.

Lemma readonly_bind {S A B} (m : M S A) (k : A -> M S B) :
  readonly m -> (forall a, readonly (k a)) -> readonly (bind m k).
Proof.
  intros Hm Hk s. unfold exec, bind.
  specialize (Hm s). unfold exec in Hm.
  destruct (m s) as [[a|e] s']; simpl in Hm; subst s'.
  - apply Hk.
  - reflexivity.
Qed.

Lemma readonly_many {S T} (child : M T Json) (queryset : list T) :
  readonly (@many S T child queryset).
Proof.
  intro s. unfold exec, many.
  now destruct (fst (for_each child queryset)).
Qed.

Lemma readonly_get_attribute {T} `{Model T} (f : Field) :
  readonly (get_attribute f).
Proof.
  intro s. unfold exec, get_attribute.
  destruct (getattr s (source f)); [reflexivity|].
  now destruct (default f).
Qed.

#[global] Hint Resolve readonly_ret readonly_raise readonly_attr readonly_lift
  readonly_many readonly_get_attribute : readonly.

(** Splits a sequence of binds and branches into its steps. *)
Ltac readonly_steps :=
  repeat first
    [ progress auto with readonly
    | apply readonly_bind; [|intros ?]
    | match goal with
      | |- readonly (if ?b then _ else _) => destruct b
      | |- readonly (match ?v with _ => _ end) => destruct v
      end ].

(** A read-only computation is its value paired with the instance. *)
Lemma readonly_run {S A} (m : M S A) (s : S) :
  readonly m -> m s = (eval m s, s).
Proof.
  intros Hm. specialize (Hm s). unfold exec, eval in *.
  destruct (m s) as [r s']; simpl in *. now subst.
Qed.

(** The representations come in the order of the records, one for each,
    and an exception is the exception of one of the records. *)
Lemma for_each_result {T A} (child : M T A) (items : list T) :
  match fst (for_each child items) with
  | Ok l => Forall2 (fun x a => eval child x = Ok a) items l
  | Raise e => exists x, In x items /\ eval child x = Raise e
  end.
Proof.
  induction items as [|x rest IH]; simpl; [constructor|].
  unfold eval at 1 2. destruct (child x) as [[a|e] x'] eqn:Hx; simpl.
  - destruct (for_each child rest) as [[l|e] rest']; simpl in *.
    + constructor; [unfold eval; now rewrite Hx | exact IH].
    + destruct IH as [y [Hy Hey]]. exists y. auto.
  - exists x. split; [now left|]. unfold eval. now rewrite Hx.
Qed.

(** A child that always returns gives the list of its values. *)
Lemma for_each_total {T A} (child : M T A) (f : T -> A) :
  (forall x, eval child x = Ok (f x)) ->
  forall items, fst (for_each child items) = Ok (map f items).
Proof.
  intros Hc. induction items as [|x rest IH]; simpl; [reflexivity|].
  specialize (Hc x). unfold eval in Hc.
  destruct (child x) as [r x']; simpl in Hc; subst r.
  destruct (for_each child rest) as [r rest']; simpl in IH; subst r.
  reflexivity.
Qed.

(* ------------------------------------------------------------------ *)
(** ** Gas prices *)

Lemma GasPriceOracleSerializer_data g :
  GasPriceOracleSerializer.data g =
    (if quantizes 19 9 (gwei_factor g)
     then Ok (oracle_object g) else Raise InvalidOperation, g).
Proof.
  destruct g as [c u p d f r]. cbn [gwei_factor].
  destruct (quantizes 19 9 d) eqn:Hq, u as [u|], p as [p|];
    unfold GasPriceOracleSerializer.data, Serializer_data; simpl;
    unfold bind, lift, ret, field_to_representation; simpl;
    rewrite Hq; reflexivity.
Qed.

Lemma GasPriceFixedSerializer_data g :
  GasPriceFixedSerializer.data g = (Ok (fixed_object g), g).
Proof.
  destruct g as [c u p d [z|] r]; reflexivity.
Qed.

Lemma oracle_guard_run g :
  GasPriceSerializer.oracle_guard g =
    (Ok (truthy (oracle_uri g) && is_None (fixed_wei_value g)), g).
Proof.
  unfold GasPriceSerializer.oracle_guard, py_and, bind, attr, ret.
  now destruct (truthy (oracle_uri g)).
Qed.

Lemma fixed_guard_run g :
  GasPriceSerializer.fixed_guard g =
    (Ok (truthy (fixed_wei_value g) && is_None (oracle_uri g)), g).
Proof.
  unfold GasPriceSerializer.fixed_guard, py_and, bind, attr, ret.
  now destruct (truthy (fixed_wei_value g)).
Qed.

(** The three branches of [GasPriceSerializer.to_representation]; the
    first ends in the quantization of [gwei_factor]. *)
Lemma GasPriceSerializer_run g :
  GasPriceSerializer.to_representation g =
    (if truthy (oracle_uri g) && is_None (fixed_wei_value g)
     then if quantizes 19 9 (gwei_factor g)
          then Ok (oracle_object g) else Raise InvalidOperation
     else if truthy (fixed_wei_value g) && is_None (oracle_uri g)
          then Ok (fixed_object g)
          else Raise (APIException
                        (GasPriceSerializer.not_provided (GasPrice.chain g))),
     g).
Proof.
  unfold GasPriceSerializer.to_representation, bind.
  rewrite oracle_guard_run.
  destruct (truthy (oracle_uri g) && is_None (fixed_wei_value g)).
  - apply GasPriceOracleSerializer_data.
  - rewrite fixed_guard_run.
    destruct (truthy (fixed_wei_value g) && is_None (oracle_uri g)).
    + apply GasPriceFixedSerializer_data.
    + reflexivity.
Qed.

Lemma populated_option_string (o : option string) : populated o = truthy o.
Proof. now destruct o. Qed.

Lemma populated_option_Z (o : option Z) : populated o = negb (is_None o).
Proof. now destruct o. Qed.

(** C1, as stated, fails: a record with only [oracle_uri] set whose
    [gwei_factor] has eleven integer digits does not fit the nineteen digits
    of the decimal field at nine decimal places, and the field raises
    [decimal.InvalidOperation] instead of rendering. *)
Lemma C1_gwei_factor_out_of_range_raises :
  populated (oracle_uri out_of_range_price) = true /\
  populated (fixed_wei_value out_of_range_price) = false /\
  gwei_factor out_of_range_price = Finite false 12345678901 0 /\
  eval GasPriceSerializer.to_representation out_of_range_price =
    Raise InvalidOperation.
Proof. repeat split. Qed.

(** C1 (amended). A gas price record with only [oracle_uri] set
    ([oracle_uri] populated, [fixed_wei_value] not populated) whose
    [gwei_factor] quantizes to nine decimal places within nineteen digits
    is rendered as an object of type "oracle" whose [uri], [gas_parameter]
    and [gwei_factor] members hold the record's [oracle_uri],
    [oracle_parameter] and [gwei_factor]. *)
Theorem C1_only_oracle_uri_set (g : GasPrice.t) :
  populated (oracle_uri g) = true ->
  populated (fixed_wei_value g) = false ->
  quantizes 19 9 (gwei_factor g) = true ->
  exists uri,
    oracle_uri g = Some uri /\
    eval GasPriceSerializer.to_representation g =
      Ok (JObj [ ("type", JStr "oracle");
                 ("uri", JStr uri);
                 ("gas_parameter", py_to_json (to_py (oracle_parameter g)));
                 ("gwei_factor", JDecimal (Some 9%nat) (gwei_factor g)) ]).
Proof.
  intros Ho Hf Hq. unfold eval. rewrite GasPriceSerializer_run, Hq.
  destruct g as [c [u|] p d [z|] r]; simpl in *; try discriminate.
  exists u. split; [reflexivity|].
  change (truthy (Some u)) with (negb (u =? "")%string).
  change (populated (Some u)) with (negb (u =? "")%string) in Ho.
  now rewrite Ho.
Qed.

Lemma C1_only_oracle_uri_set_witness :
  exists uri,
    oracle_uri oracle_price = Some uri /\
    eval GasPriceSerializer.to_representation oracle_price =
      Ok (JObj [ ("type", JStr "oracle");
                 ("uri", JStr uri);
                 ("gas_parameter", JStr "fast");
                 ("gwei_factor", JDecimal (Some 9%nat) one) ]).
Proof. apply (C1_only_oracle_uri_set oracle_price); reflexivity. Defined.

(** C2, as stated, fails: a record whose only populated price is a fixed
    value of zero raises instead of being rendered as "fixed". *)
Lemma C2_zero_fixed_value_raises :
  populated (fixed_wei_value zero_price) = true /\
  populated (oracle_uri zero_price) = false /\
  eval GasPriceSerializer.to_representation zero_price =
    Raise (APIException
      ("The gas price oracle or a fixed gas price was not provided for chain "
         ++ "Rinkeby")).
Proof. repeat split. Qed.

(** So does a record with a fixed value whose [oracle_uri] is the empty
    string rather than [None]. *)
Lemma blank_oracle_uri_with_fixed_value_raises :
  populated (fixed_wei_value blank_oracle_price) = true /\
  populated (oracle_uri blank_oracle_price) = false /\
  eval GasPriceSerializer.to_representation blank_oracle_price =
    Raise (APIException
      ("The gas price oracle or a fixed gas price was not provided for chain "
         ++ "Rinkeby")).
Proof. repeat split. Qed.

(** C2 (amended). A gas price record whose [fixed_wei_value] is a non-zero
    value and whose [oracle_uri] is [None] is rendered as an object of type
    "fixed" whose [wei_value] member carries the record's [fixed_wei_value]
    as a string. *)
Theorem C2_only_fixed_wei_value_set (g : GasPrice.t) (wei : Z) :
  fixed_wei_value g = Some wei ->
  wei <> 0 ->
  oracle_uri g = None ->
  eval GasPriceSerializer.to_representation g =
    Ok (JObj [ ("type", JStr "fixed"); ("wei_value", JStr (str_int wei)) ]).
Proof.
  intros Hf Hz Ho. unfold eval. rewrite GasPriceSerializer_run.
  unfold fixed_object. rewrite Hf, Ho. simpl.
  change (truthy (Some wei)) with (negb (wei =? 0)).
  destruct (Z.eqb_spec wei 0) as [E|_]; [contradiction|reflexivity].
Qed.

Lemma C2_only_fixed_wei_value_set_witness :
  eval GasPriceSerializer.to_representation fixed_price =
    Ok (JObj [ ("type", JStr "fixed"); ("wei_value", JStr "1000000000") ]).
Proof.
  apply (C2_only_fixed_wei_value_set fixed_price 1000000000);
    [reflexivity | lia | reflexivity].
Defined.

(** C3. A gas price record with both [oracle_uri] and [fixed_wei_value]
    set, or with neither, raises an [APIException] whose message ends with
    the record's chain, and no representation is returned. *)
Theorem C3_both_or_neither_raises (g : GasPrice.t) :
  (populated (oracle_uri g) = true /\ populated (fixed_wei_value g) = true)
  \/ (populated (oracle_uri g) = false /\
      populated (fixed_wei_value g) = false) ->
  eval GasPriceSerializer.to_representation g =
    Raise (APIException
      ("The gas price oracle or a fixed gas price was not provided for chain "
         ++ chain_str (GasPrice.chain g))).
Proof.
  intros H. unfold eval. rewrite GasPriceSerializer_run.
  rewrite populated_option_string, populated_option_Z in H.
  destruct (truthy (oracle_uri g)) eqn:Ho, (fixed_wei_value g) as [z|] eqn:Hf;
    simpl in *.
  - destruct (oracle_uri g); [|discriminate Ho].
    now rewrite andb_false_r.
  - destruct H as [[_ H]|[H _]]; discriminate H.
  - destruct H as [[H _]|[_ H]]; discriminate H.
  - reflexivity.
Qed.

Lemma C3_both_or_neither_raises_witness :
  eval GasPriceSerializer.to_representation both_price =
    Raise (APIException
      ("The gas price oracle or a fixed gas price was not provided for chain "
         ++ "Rinkeby")).
Proof.
  apply (C3_both_or_neither_raises both_price).
  left. split; reflexivity.
Defined.

(** The same holds when "set" is read as "not [None]". *)
Lemma both_not_None_raises (g : GasPrice.t) :
  is_None (oracle_uri g) = is_None (fixed_wei_value g) ->
  eval GasPriceSerializer.to_representation g =
    Raise (APIException (GasPriceSerializer.not_provided (GasPrice.chain g))).
Proof.
  intros H. unfold eval. rewrite GasPriceSerializer_run.
  destruct g as [c [u|] p d [z|] r]; simpl in *; try discriminate;
    now rewrite ?andb_false_r.
Qed.

(** C8, as stated, fails: a record that passes the oracle guard with a
    [gwei_factor] of ten to the tenth has a fourth outcome, neither a
    tagged object nor the [APIException]: [decimal.InvalidOperation]. *)
Lemma C8_fourth_outcome :
  eval GasPriceSerializer.oracle_guard power_of_ten_price = Ok true /\
  eval GasPriceSerializer.fixed_guard power_of_ten_price = Ok false /\
  gwei_factor power_of_ten_price = Finite false 1 10 /\
  eval GasPriceSerializer.to_representation power_of_ten_price =
    Raise InvalidOperation.
Proof. repeat split. Qed.

(** C8 (amended). [GasPriceSerializer.to_representation] has exactly one of
    four outcomes, each with its condition: an object tagged "oracle", for
    a record that passes the oracle guard and whose [gwei_factor]
    quantizes; [decimal.InvalidOperation], for a record that passes the
    oracle guard and whose [gwei_factor] does not; an object tagged
    "fixed", for a record that passes the fixed guard; and the
    [APIException] for every other record.  The two guards exclude each
    other, and no untagged object is returned. *)
Theorem C8_four_outcomes (g : GasPrice.t) :
  let result := eval GasPriceSerializer.to_representation g in
  let oracle := eval GasPriceSerializer.oracle_guard g in
  let fixed := eval GasPriceSerializer.fixed_guard g in
  (oracle = Ok true /\ fixed = Ok false /\
     quantizes 19 9 (gwei_factor g) = true /\
     exists members, result = Ok (JObj (("type", JStr "oracle") :: members)))
  \/ (oracle = Ok true /\ fixed = Ok false /\
        quantizes 19 9 (gwei_factor g) = false /\
        result = Raise InvalidOperation)
  \/ (oracle = Ok false /\ fixed = Ok true /\
        exists members, result = Ok (JObj (("type", JStr "fixed") :: members)))
  \/ (oracle = Ok false /\ fixed = Ok false /\
        result = Raise (APIException
                   (GasPriceSerializer.not_provided (GasPrice.chain g)))).
Proof.
  unfold eval.
  rewrite GasPriceSerializer_run, oracle_guard_run, fixed_guard_run. simpl.
  destruct (truthy (oracle_uri g)) eqn:Ho, (fixed_wei_value g) as [z|] eqn:Hf;
    simpl.
  - right. right. destruct (truthy (Some z) && is_None (oracle_uri g)) eqn:Hg.
    + apply andb_prop in Hg. destruct Hg as [_ Hn].
      destruct (oracle_uri g); discriminate.
    + right. auto.
  - destruct (quantizes 19 9 (gwei_factor g)).
    + left. repeat split. eexists. reflexivity.
    + right. left. auto.
  - right. right. destruct (truthy (Some z) && is_None (oracle_uri g)).
    + left. repeat split. eexists. reflexivity.
    + right. auto.
  - right. right. right. auto.
Qed.

(* ------------------------------------------------------------------ *)
(** ** Chains *)

(** The fields [ModelSerializer.get_fields] arrives at. *)
Lemma ChainSerializer_get_fields :
  ChainSerializer.get_fields =
    [ Declared ChainSerializer.chain_id;
      Declared ChainSerializer.chain_name;
      Declared ChainSerializer.short_name;
      Declared (mkField "description" "description" None ModelField);
      Declared (mkField "l2" "l2" None ModelField);
      Method "rpc_uri" ChainSerializer.get_rpc_uri;
      Method "safe_apps_rpc_uri" ChainSerializer.get_safe_apps_rpc_uri;
      Method "block_explorer_uri_template"
             ChainSerializer.get_block_explorer_uri_template;
      Method "native_currency" ChainSerializer.get_native_currency;
      Declared ChainSerializer.transaction_service;
      Declared ChainSerializer.vpc_transaction_service;
      Method "theme" ChainSerializer.get_theme;
      Method "gas_price" ChainSerializer.get_gas_price;
      Declared ChainSerializer.ens_registry_address;
      Declared (mkField "recommended_master_copy_version"
                        "recommended_master_copy_version" None ModelField);
      Method "disabled_wallets" ChainSerializer.get_disabled_wallets;
      Method "features" ChainSerializer.get_features ].
Proof. reflexivity. Qed.

Lemma get_disabled_wallets_run c :
  ChainSerializer.get_disabled_wallets c =
    (Ok (key_array Wallet.key (Chain.get_disabled_wallets c)), c).
Proof.
  unfold ChainSerializer.get_disabled_wallets, bind, attr, many, key_array.
  now rewrite (for_each_total WalletSerializer.to_representation
                 (fun w => JStr (Wallet.key w))).
Qed.

Lemma get_features_run c :
  ChainSerializer.get_features c =
    (Ok (key_array Feature.key (Chain.feature_set c)), c).
Proof.
  unfold ChainSerializer.get_features, bind, attr, many, key_array.
  now rewrite (for_each_total FeatureSerializer.to_representation
                 (fun f => JStr (Feature.key f))).
Qed.

Lemma get_gas_price_readonly : readonly ChainSerializer.get_gas_price.
Proof. unfold ChainSerializer.get_gas_price. readonly_steps. Qed.

Lemma represent_members_cons {T} `{Model T} (m : Member T) rest obj :
  represent_members (m :: rest) obj =
    match represent_member m obj with
    | (Ok kv, obj') =>
        match represent_members rest obj' with
        | (Ok kvs, obj'') => (Ok (kv :: kvs), obj'')
        | (Raise e, obj'') => (Raise e, obj'')
        end
    | (Raise e, obj') => (Raise e, obj')
    end.
Proof.
  simpl. unfold bind.
  destruct (represent_member m obj) as [[kv|e] obj']; [|reflexivity].
  now destruct (represent_members rest obj') as [[kvs|e] obj''].
Qed.

Lemma represent_members_returns {T} `{Model T} (m : Member T) rest obj kv :
  represent_member m obj = (Ok kv, obj) ->
  represent_members (m :: rest) obj =
    match represent_members rest obj with
    | (Ok kvs, obj') => (Ok (kv :: kvs), obj')
    | (Raise e, obj') => (Raise e, obj')
    end.
Proof. intros Hm. now rewrite represent_members_cons, Hm. Qed.

(** Settles a goal about a chain by the cases of its optional attributes. *)
Ltac chain_cases c :=
  destruct c as [? ? ? ? ? ? ? ? ? ? ? ? ? ? ? logo ts vpc ? ? ens ? ? ? ?];
  destruct logo, ts, vpc, ens; reflexivity.

Lemma native_currency_member c :
  represent_member
    (Method "native_currency" ChainSerializer.get_native_currency) c =
    (Ok ("native_currency",
         JObj [ ("name", JStr (Chain.currency_name c));
                ("symbol", JStr (Chain.currency_symbol c));
                ("decimals", JInt (Chain.currency_decimals c));
                ("logo_uri", py_to_json (to_py (Chain.currency_logo_uri c))) ]),
     c).
Proof. chain_cases c. Qed.

Lemma transaction_service_member c :
  represent_member (Declared ChainSerializer.transaction_service) c =
    (Ok ("transaction_service",
         py_to_json (to_py (Chain.transaction_service_uri c))), c).
Proof. chain_cases c. Qed.

Lemma vpc_transaction_service_member c :
  represent_member (Declared ChainSerializer.vpc_transaction_service) c =
    (Ok ("vpc_transaction_service",
         py_to_json (to_py (Chain.vpc_transaction_service_uri c))), c).
Proof. chain_cases c. Qed.

Lemma ens_registry_address_member c :
  represent_member (Declared ChainSerializer.ens_registry_address) c =
    (Ok ("ens_registry_address",
         py_to_json (to_py (Chain.ens_registry_address c))), c).
Proof. chain_cases c. Qed.

Lemma disabled_wallets_member c :
  represent_member
    (Method "disabled_wallets" ChainSerializer.get_disabled_wallets) c =
    (Ok ("disabled_wallets",
         key_array Wallet.key (Chain.get_disabled_wallets c)), c).
Proof.
  unfold represent_member, bind. now rewrite get_disabled_wallets_run.
Qed.

Lemma features_member c :
  represent_member (Method "features" ChainSerializer.get_features) c =
    (Ok ("features", key_array Feature.key (Chain.feature_set c)), c).
Proof. unfold represent_member, bind. now rewrite get_features_run. Qed.

Lemma gas_price_member c :
  represent_member (Method "gas_price" ChainSerializer.get_gas_price) c =
    (match eval ChainSerializer.get_gas_price c with
     | Ok gas_price => Ok ("gas_price", gas_price)
     | Raise e => Raise e
     end, c).
Proof.
  unfold represent_member, bind.
  rewrite (readonly_run _ c get_gas_price_readonly).
  now destruct (eval ChainSerializer.get_gas_price c).
Qed.

(** A chain is rendered as [chain_object] around its gas prices, and raises
    what its gas prices raise. *)
Lemma ChainSerializer_run c :
  ChainSerializer.to_representation c =
    (match eval ChainSerializer.get_gas_price c with
     | Ok gas_price => Ok (chain_object c gas_price)
     | Raise e => Raise e
     end, c).
Proof.
  unfold ChainSerializer.to_representation, Serializer_data, bind at 1.
  rewrite ChainSerializer_get_fields.
  do 8 (erewrite represent_members_returns by reflexivity).
  rewrite (represent_members_returns _ _ _ _ (native_currency_member c)).
  rewrite (represent_members_returns _ _ _ _ (transaction_service_member c)).
  rewrite (represent_members_returns
             _ _ _ _ (vpc_transaction_service_member c)).
  erewrite represent_members_returns by reflexivity.
  rewrite represent_members_cons, gas_price_member.
  destruct (eval ChainSerializer.get_gas_price c) as [gas_price|e];
    [|reflexivity].
  rewrite (represent_members_returns _ _ _ _ (ens_registry_address_member c)).
  erewrite represent_members_returns by reflexivity.
  rewrite (represent_members_returns _ _ _ _ (disabled_wallets_member c)).
  rewrite (represent_members_returns _ _ _ _ (features_member c)).
  reflexivity.
Qed.


Lemma StronglySorted_weaken {A} (R R' : A -> A -> Prop) l :
  (forall a b, R a b -> R' a b) -> StronglySorted R l -> StronglySorted R' l.
Proof.
  intros HR. induction 1 as [|x rest Hrest IH Hall]; constructor; auto.
  eapply Forall_impl; [|exact Hall]. auto.
Qed.

(** C4. The [disabled_wallets] and [features] arrays of a chain are its
    disabled wallets and its features in ascending order of their keys, and
    each element is the record's key string. *)
Theorem C4_wallets_and_features_sorted (c : Chain.t) :
  exists wallets features,
    Permutation (Chain.get_disabled_wallets c) wallets /\
    StronglySorted (fun a b => (Wallet.key a <=? Wallet.key b)%string = true)
                   wallets /\
    Permutation (Chain.feature_set c) features /\
    StronglySorted (fun a b => (Feature.key a <=? Feature.key b)%string = true)
                   features /\
    eval ChainSerializer.get_disabled_wallets c =
      Ok (JList (map (fun w => JStr (Wallet.key w)) wallets)) /\
    eval ChainSerializer.get_features c =
      Ok (JList (map (fun f => JStr (Feature.key f)) features)) /\
    match eval ChainSerializer.to_representation c with
    | Ok out =>
        member "disabled_wallets" out =
          Some (JList (map (fun w => JStr (Wallet.key w)) wallets)) /\
        member "features" out =
          Some (JList (map (fun f => JStr (Feature.key f)) features))
    | Raise e => eval ChainSerializer.get_gas_price c = Raise e
    end.
Proof.
  exists (order_by Wallet.key String.leb (Chain.get_disabled_wallets c)),
         (order_by Feature.key String.leb (Chain.feature_set c)).
  repeat split.
  - apply order_by_Permutation.
  - apply (order_by_sorted Wallet.key String.leb
             String.leb_total string_leb_trans).
  - apply order_by_Permutation.
  - apply (order_by_sorted Feature.key String.leb
             String.leb_total string_leb_trans).
  - unfold eval. now rewrite get_disabled_wallets_run.
  - unfold eval. now rewrite get_features_run.
  - unfold eval at 1. rewrite ChainSerializer_run. simpl.
    destruct (eval ChainSerializer.get_gas_price c); [split|]; reflexivity.
Qed.

(** C5. The [gas_price] array of a chain lists the chain's gas price
    records in ascending order of their rank: it holds the representation
    of each record in that order, and when a record raises, the array
    raises with it. *)
Theorem C5_gas_price_by_rank (c : Chain.t) :
  exists ranked,
    Permutation (Chain.gasprice_set c) ranked /\
    StronglySorted (fun a b => GasPrice.rank a <= GasPrice.rank b) ranked /\
    match eval ChainSerializer.get_gas_price c with
    | Ok array =>
        exists items,
          array = JList items /\
          Forall2 (fun g item =>
                     eval GasPriceSerializer.to_representation g = Ok item)
                  ranked items
    | Raise e =>
        exists g,
          In g ranked /\ eval GasPriceSerializer.to_representation g = Raise e
    end /\
    match eval ChainSerializer.to_representation c with
    | Ok out =>
        exists array,
          eval ChainSerializer.get_gas_price c = Ok array /\
          member "gas_price" out = Some array
    | Raise e => eval ChainSerializer.get_gas_price c = Raise e
    end.
Proof.
  exists (order_by GasPrice.rank Z.leb (Chain.gasprice_set c)).
  split; [apply order_by_Permutation|]. split; [|split].
  - eapply StronglySorted_weaken;
      [|apply (order_by_sorted GasPrice.rank Z.leb Z_leb_total Z_leb_trans)].
    intros a b Hab. now apply Z.leb_le.
  - unfold eval at 1, ChainSerializer.get_gas_price, bind, attr, many. simpl.
    pose proof (for_each_result GasPriceSerializer.to_representation
                  (order_by GasPrice.rank Z.leb (Chain.gasprice_set c))) as H.
    destruct (fst (for_each GasPriceSerializer.to_representation
                     (order_by GasPrice.rank Z.leb (Chain.gasprice_set c))))
      as [items|e]; simpl.
    + exists items. now split.
    + exact H.
  - unfold eval at 1. rewrite ChainSerializer_run. simpl.
    destruct (eval ChainSerializer.get_gas_price c) as [array|e];
      [|reflexivity].
    exists array. now split.
Qed.

(** The gas price array raises only what one of the chain's gas price
    records raises. *)
Lemma get_gas_price_raises (c : Chain.t) (e : Exn) :
  eval ChainSerializer.get_gas_price c = Raise e ->
  exists g,
    In g (Chain.gasprice_set c) /\
    eval GasPriceSerializer.to_representation g = Raise e.
Proof.
  unfold eval at 1, ChainSerializer.get_gas_price, bind, attr, many. simpl.
  pose proof (for_each_result GasPriceSerializer.to_representation
                (order_by GasPrice.rank Z.leb (Chain.gasprice_set c))) as H.
  destruct (fst (for_each GasPriceSerializer.to_representation
                   (order_by GasPrice.rank Z.leb (Chain.gasprice_set c))))
    as [items|e']; simpl; [discriminate|].
  intros E. injection E as ->.
  destruct H as [g [Hin Hg]]. exists g. split; [|exact Hg].
  eapply Permutation_in; [|exact Hin].
  apply Permutation_sym, order_by_Permutation.
Qed.

(** C6. The output for a chain is an object with exactly the seventeen
    listed fields, whose [rpc_uri], [safe_apps_rpc_uri],
    [block_explorer_uri_template], [native_currency] and [theme] members are
    objects with the listed keys.  The only chain without an output is one
    with a gas price record that raises, and it raises the same. *)
Theorem C6_chain_object_fields (c : Chain.t) :
  (exists out,
     eval ChainSerializer.to_representation c = Ok out /\
     object_keys out =
       Some [ "chain_id"; "chain_name"; "short_name"; "description"; "l2";
              "rpc_uri"; "safe_apps_rpc_uri"; "block_explorer_uri_template";
              "native_currency"; "transaction_service";
              "vpc_transaction_service"; "theme"; "gas_price";
              "ens_registry_address"; "recommended_master_copy_version";
              "disabled_wallets"; "features" ] /\
     nested_keys "rpc_uri" out = Some ["authentication"; "value"] /\
     nested_keys "safe_apps_rpc_uri" out = Some ["authentication"; "value"] /\
     nested_keys "block_explorer_uri_template" out =
       Some ["address"; "tx_hash"; "api"] /\
     nested_keys "native_currency" out =
       Some ["name"; "symbol"; "decimals"; "logo_uri"] /\
     nested_keys "theme" out = Some ["text_color"; "background_color"])
  \/ (exists g e,
        In g (Chain.gasprice_set c) /\
        eval GasPriceSerializer.to_representation g = Raise e /\
        eval ChainSerializer.to_representation c = Raise e).
Proof.
  assert (Hrun : eval ChainSerializer.to_representation c =
                   match eval ChainSerializer.get_gas_price c with
                   | Ok gas_price => Ok (chain_object c gas_price)
                   | Raise e => Raise e
                   end).
  { unfold eval at 1. now rewrite ChainSerializer_run. }
  rewrite Hrun.
  destruct (eval ChainSerializer.get_gas_price c) as [array|e] eqn:Hgp.
  - left. eexists. split; [reflexivity|]. repeat split.
  - right. destruct (get_gas_price_raises c e Hgp) as [g [Hin Hg]].
    exists g, e. auto.
Qed.

(** C9. [transaction_service] declares a default of [None] and
    [vpc_transaction_service] declares none.  A chain without a
    [transaction_service_uri] value gets a [transaction_service] member
    holding null; on an object that lacks the attribute altogether the
    default still gives null, where [vpc_transaction_service] fails. *)
Theorem C9_transaction_service_default
        (c : Chain.t) (obj : list (string * PyVal)) :
  Chain.transaction_service_uri c = None ->
  getattr obj "transaction_service_uri" = None ->
  getattr obj "vpc_transaction_service_uri" = None ->
  default ChainSerializer.transaction_service = Some PNone /\
  default ChainSerializer.vpc_transaction_service = None /\
  eval (represent_member (Declared ChainSerializer.transaction_service)) c =
    Ok ("transaction_service", JNull) /\
  match eval ChainSerializer.to_representation c with
  | Ok out => member "transaction_service" out = Some JNull
  | Raise e => eval ChainSerializer.get_gas_price c = Raise e
  end /\
  eval (represent_member (Declared ChainSerializer.transaction_service)) obj =
    Ok ("transaction_service", JNull) /\
  eval (represent_member (Declared ChainSerializer.vpc_transaction_service))
       obj =
    Raise (AttributeError "vpc_transaction_service_uri").
Proof.
  intros Hc Hts Hvpc. repeat split.
  - unfold eval. rewrite transaction_service_member. now rewrite Hc.
  - unfold eval at 1. rewrite ChainSerializer_run. simpl.
    destruct (eval ChainSerializer.get_gas_price c); [|reflexivity].
    simpl. now rewrite Hc.
  - unfold eval, represent_member, bind, get_attribute. simpl source.
    now rewrite Hts.
  - unfold eval, represent_member, bind, get_attribute. simpl source.
    now rewrite Hvpc.
Qed.

Lemma C9_transaction_service_default_witness :
  default ChainSerializer.transaction_service = Some PNone /\
  default ChainSerializer.vpc_transaction_service = None /\
  eval (represent_member (Declared ChainSerializer.transaction_service))
       rinkeby_chain =
    Ok ("transaction_service", JNull) /\
  match eval ChainSerializer.to_representation rinkeby_chain with
  | Ok out => member "transaction_service" out = Some JNull
  | Raise e => eval ChainSerializer.get_gas_price rinkeby_chain = Raise e
  end /\
  eval (represent_member (Declared ChainSerializer.transaction_service))
       [("id", PInt 4)] =
    Ok ("transaction_service", JNull) /\
  eval (represent_member (Declared ChainSerializer.vpc_transaction_service))
       [("id", PInt 4)] =
    Raise (AttributeError "vpc_transaction_service_uri").
Proof.
  apply (C9_transaction_service_default rinkeby_chain [("id", PInt 4)]);
    reflexivity.
Defined.

(** The string of an integer reads back as the integer. *)
Lemma parse_int_str_int (z : Z) : parse_int (str_int z) = Some z.
Proof.
  unfold parse_int, str_int.
  pose proof (DecimalZ.of_to z) as Hz.
  destruct (Z.to_int z) as [d|d];
    destruct d as [| | | | | | | | | |];
    try (rewrite NilZero.isi by discriminate;
         unfold option_map; now rewrite Hz);
    rewrite <- Hz; reflexivity.
Qed.

Lemma str_int_inj (a b : Z) : str_int a = str_int b -> a = b.
Proof.
  intros H. pose proof (parse_int_str_int a) as Ha.
  rewrite H, parse_int_str_int in Ha. congruence.
Qed.

(** C10. The [chain_id] member of a rendered chain is a string, not a
    number: the character field sourced from [id] renders the chain's id as
    the string of its decimal digits, which reads back as the id and so
    differs from the string of any other id. *)
Theorem C10_chain_id_is_string (c : Chain.t) (out : Json) :
  eval ChainSerializer.to_representation c = Ok out ->
  exists digits,
    member "chain_id" out = Some (JStr digits) /\
    digits = str_int (Chain.id c) /\
    parse_int digits = Some (Chain.id c) /\
    (forall other, digits = str_int other -> other = Chain.id c) /\
    eval (represent_member (Declared ChainSerializer.chain_id)) c =
      Ok ("chain_id", JStr digits).
Proof.
  intros Hout. unfold eval in Hout. rewrite ChainSerializer_run in Hout.
  simpl in Hout.
  destruct (eval ChainSerializer.get_gas_price c); [|discriminate].
  injection Hout as <-.
  exists (str_int (Chain.id c)). repeat split.
  - apply parse_int_str_int.
  - intros other H. symmetry. now apply str_int_inj.
Qed.

Lemma C10_chain_id_is_string_witness :
  exists digits,
    member "chain_id" (chain_object rinkeby_chain
                         (JList [fixed_object fixed_price;
                                 oracle_object oracle_price])) =
      Some (JStr digits) /\
    digits = "4" /\
    parse_int digits = Some 4 /\
    (forall other, digits = str_int other -> other = 4) /\
    eval (represent_member (Declared ChainSerializer.chain_id))
         rinkeby_chain =
      Ok ("chain_id", JStr digits).
Proof.
  apply (C10_chain_id_is_string rinkeby_chain
           (chain_object rinkeby_chain
              (JList [fixed_object fixed_price;
                      oracle_object oracle_price]))).
  reflexivity.
Defined.

(* ------------------------------------------------------------------ *)
(** ** The sample chain *)

Example rinkeby_chain_representation :
  eval ChainSerializer.to_representation rinkeby_chain =
    Ok (JObj
      [ ("chain_id", JStr "4");
        ("chain_name", JStr "Rinkeby");
        ("short_name", JStr "rin");
        ("description", JStr "Test network");
        ("l2", JBool false);
        ("rpc_uri",
          JObj [ ("authentication", JStr "API_KEY_PATH");
                 ("value", JStr "https://rinkeby.example/v3/") ]);
        ("safe_apps_rpc_uri",
          JObj [ ("authentication", JStr "NO_AUTHENTICATION");
                 ("value", JStr "https://apps.rinkeby.example/") ]);
        ("block_explorer_uri_template",
          JObj [ ("address", JStr "https://scan.example/address/{{address}}");
                 ("tx_hash", JStr "https://scan.example/tx/{{txHash}}");
                 ("api", JStr "https://api.scan.example/api") ]);
        ("native_currency",
          JObj [ ("name", JStr "Ether");
                 ("symbol", JStr "ETH");
                 ("decimals", JInt 18);
                 ("logo_uri", JStr "/media/chains/4/currency_logo.png") ]);
        ("transaction_service", JNull);
        ("vpc_transaction_service", JNull);
        ("theme",
          JObj [ ("text_color", JStr "#ffffff");
                 ("background_color", JStr "#e8673c") ]);
        ("gas_price",
          JList
            [ JObj [ ("type", JStr "fixed");
                     ("wei_value", JStr "1000000000") ];
              JObj [ ("type", JStr "oracle");
                     ("uri", JStr "https://gas.example/api");
                     ("gas_parameter", JStr "fast");
                     ("gwei_factor", JDecimal (Some 9%nat) one) ] ]);
        ("ens_registry_address", JNull);
        ("recommended_master_copy_version", JStr "1.3.0");
        ("disabled_wallets",
          JList [JStr "ledger"; JStr "trezor"; JStr "walletLink"]);
        ("features", JList [JStr "ERC721"; JStr "SAFE_APPS"]) ]).
Proof. reflexivity. Qed.

(** One gas price record that raises takes the whole chain with it. *)
Example chain_with_zero_price_raises :
  eval ChainSerializer.to_representation
       (Chain.mk 4 "Rinkeby" "rin" "" false "" "" "" "" "" "" ""
                 "Ether" "ETH" 18 None None None "" "" None "1.3.0"
                 [oracle_price; zero_price] [] []) =
    Raise (APIException
      ("The gas price oracle or a fixed gas price was not provided for chain "
         ++ "Rinkeby")).
Proof. reflexivity. Qed.

(* ------------------------------------------------------------------ *)
(** ** Further properties: which records are rendered *)

Lemma GasPriceSerializer_eval g :
  eval GasPriceSerializer.to_representation g =
    if is_oracle g
    then if quantizes 19 9 (gwei_factor g)
         then Ok (oracle_object g) else Raise InvalidOperation
    else if is_fixed g then Ok (fixed_object g)
    else Raise (APIException
                  (GasPriceSerializer.not_provided (GasPrice.chain g))).
Proof. unfold eval. now rewrite GasPriceSerializer_run. Qed.

Lemma renders_returns g :
  renders g = true <->
  exists j, eval GasPriceSerializer.to_representation g = Ok j.
Proof.
  rewrite GasPriceSerializer_eval. unfold renders.
  destruct (is_oracle g), (quantizes 19 9 (gwei_factor g)), (is_fixed g);
    simpl; split; eauto; try discriminate;
    try (intros [j Hj]; discriminate).
Qed.

(** What a record raises: the [APIException] when it passes neither guard,
    [decimal.InvalidOperation] when it passes the oracle guard and its
    [gwei_factor] cannot be quantized. *)
Lemma raises_cases g e :
  eval GasPriceSerializer.to_representation g = Raise e ->
  renders g = false /\
  ((valid g = false /\
    e = APIException (GasPriceSerializer.not_provided (GasPrice.chain g)))
   \/ (is_oracle g = true /\
       quantizes 19 9 (gwei_factor g) = false /\
       e = InvalidOperation)).
Proof.
  rewrite GasPriceSerializer_eval. unfold renders, valid.
  destruct (is_oracle g), (quantizes 19 9 (gwei_factor g)), (is_fixed g);
    simpl; try discriminate; intros [= <-]; auto.
Qed.

Lemma for_each_Ok_iff {T A} (child : M T A) (items : list T) :
  (exists l, fst (for_each child items) = Ok l) <->
  Forall (fun x => exists a, eval child x = Ok a) items.
Proof.
  pose proof (for_each_result child items) as H.
  destruct (fst (for_each child items)) as [l|e]; split.
  - intros _. induction H; constructor; eauto.
  - eauto.
  - intros [l Hl]. discriminate.
  - intros Hall. destruct H as [x [Hin Hx]].
    rewrite Forall_forall in Hall. destruct (Hall x Hin) as [a Ha].
    congruence.
Qed.

Lemma for_each_length {T A} (child : M T A) (items : list T) l :
  fst (for_each child items) = Ok l -> length l = length items.
Proof.
  intros Hl. pose proof (for_each_result child items) as H.
  rewrite Hl in H. symmetry. eapply Forall2_length; eauto.
Qed.

(** The exception of a list is the exception of its first record that
    raises. *)
Lemma for_each_first_failure {T A} (child : M T A) (items : list T) e :
  fst (for_each child items) = Raise e ->
  exists before x after,
    items = (before ++ x :: after)%list /\
    Forall (fun y => exists a, eval child y = Ok a) before /\
    eval child x = Raise e.
Proof.
  induction items as [|x rest IH]; simpl; [discriminate|].
  destruct (child x) as [[a|e'] x'] eqn:Hx.
  - destruct (for_each child rest) as [[l|e''] rest']; simpl in *;
      [discriminate|].
    intros [= ->]. destruct (IH eq_refl) as [before [y [after [-> [Hb Hy]]]]].
    exists (x :: before), y, after. repeat split; [|exact Hy].
    constructor; [|exact Hb]. exists a. unfold eval. now rewrite Hx.
  - simpl. intros [= ->]. exists [], x, rest. repeat split; [constructor|].
    unfold eval. now rewrite Hx.
Qed.

Lemma get_gas_price_eval c :
  eval ChainSerializer.get_gas_price c =
    match fst (for_each GasPriceSerializer.to_representation
                 (order_by GasPrice.rank Z.leb (Chain.gasprice_set c))) with
    | Ok l => Ok (JList l)
    | Raise e => Raise e
    end.
Proof.
  unfold eval, ChainSerializer.get_gas_price, bind, attr, many. simpl.
  now destruct (fst (for_each GasPriceSerializer.to_representation
                       (order_by GasPrice.rank Z.leb (Chain.gasprice_set c)))).
Qed.

Lemma ChainSerializer_eval c :
  eval ChainSerializer.to_representation c =
    match eval ChainSerializer.get_gas_price c with
    | Ok gas_price => Ok (chain_object c gas_price)
    | Raise e => Raise e
    end.
Proof. unfold eval at 1. now rewrite ChainSerializer_run. Qed.

(** X1. A chain is rendered exactly when each of its gas price records is:
    the record passes the fixed guard, or it passes the oracle guard and
    its [gwei_factor] can be quantized.  The [gas_price] array then has one
    element for each record. *)
Theorem chain_rendered_iff_gas_prices_rendered (c : Chain.t) :
  Forall (fun g => renders g = true) (Chain.gasprice_set c) <->
  exists out items,
    eval ChainSerializer.to_representation c = Ok out /\
    member "gas_price" out = Some (JList items) /\
    length items = length (Chain.gasprice_set c).
Proof.
  rewrite ChainSerializer_eval, get_gas_price_eval.
  set (ranked := order_by GasPrice.rank Z.leb (Chain.gasprice_set c)).
  assert (Hperm : Permutation (Chain.gasprice_set c) ranked)
    by apply order_by_Permutation.
  split.
  - intros Hall.
    assert (Hranked : Forall (fun g => exists j,
              eval GasPriceSerializer.to_representation g = Ok j) ranked).
    { eapply Permutation_Forall; [exact Hperm|].
      eapply Forall_impl; [|exact Hall]. intros g. apply renders_returns. }
    apply for_each_Ok_iff in Hranked. destruct Hranked as [l Hl].
    rewrite Hl. exists (chain_object c (JList l)), l.
    repeat split. rewrite (for_each_length _ _ _ Hl).
    symmetry. now apply Permutation_length.
  - intros [out [items [Hout _]]].
    destruct (fst (for_each GasPriceSerializer.to_representation ranked))
      as [l|e] eqn:Hl; [|discriminate].
    assert (Hranked : Forall (fun g => exists j,
              eval GasPriceSerializer.to_representation g = Ok j) ranked).
    { apply for_each_Ok_iff. eauto. }
    eapply Permutation_Forall; [apply Permutation_sym, Hperm|].
    eapply Forall_impl; [|exact Hranked]. intros g. apply renders_returns.
Qed.

Lemma StronglySorted_after {A} (R : A -> A -> Prop) before x after :
  StronglySorted R (before ++ x :: after)%list -> Forall (R x) after.
Proof.
  induction before as [|y before IH]; simpl; intros H.
  - now apply StronglySorted_inv in H.
  - apply StronglySorted_inv in H. now apply IH.
Qed.

(** X2. When a chain raises, the exception is that of one of its gas price
    records that is not rendered: the [APIException] of a record that
    passes neither guard, or [decimal.InvalidOperation] from a record that
    passes the oracle guard and whose [gwei_factor] cannot be quantized.
    Every record of a strictly lower rank is rendered: the failing record
    of lowest rank decides the exception. *)
Theorem chain_raises_for_lowest_ranked_failure (c : Chain.t) (e : Exn) :
  eval ChainSerializer.to_representation c = Raise e ->
  exists g,
    In g (Chain.gasprice_set c) /\
    renders g = false /\
    eval GasPriceSerializer.to_representation g = Raise e /\
    ((valid g = false /\
      e = APIException (GasPriceSerializer.not_provided (GasPrice.chain g)))
     \/ (is_oracle g = true /\
         quantizes 19 9 (gwei_factor g) = false /\
         e = InvalidOperation)) /\
    forall h,
      In h (Chain.gasprice_set c) -> GasPrice.rank h < GasPrice.rank g ->
      renders h = true.
Proof.
  rewrite ChainSerializer_eval, get_gas_price_eval.
  set (ranked := order_by GasPrice.rank Z.leb (Chain.gasprice_set c)).
  assert (Hperm : Permutation (Chain.gasprice_set c) ranked)
    by apply order_by_Permutation.
  assert (Hsorted : StronglySorted (ascending GasPrice.rank Z.leb) ranked)
    by apply (order_by_sorted GasPrice.rank Z.leb Z_leb_total Z_leb_trans).
  destruct (fst (for_each GasPriceSerializer.to_representation ranked))
    as [l|e'] eqn:Hl; [discriminate|].
  intros [= ->].
  destruct (for_each_first_failure _ _ _ Hl)
    as [before [g [after [Hsplit [Hbefore Hg]]]]].
  destruct (raises_cases g e Hg) as [Hnot Hcases].
  exists g. repeat split; [|exact Hnot|exact Hg|exact Hcases|].
  - eapply Permutation_in; [apply Permutation_sym, Hperm|].
    rewrite Hsplit. apply in_or_app. right. now left.
  - intros h Hin Hrank.
    apply (Permutation_in _ Hperm) in Hin. rewrite Hsplit in Hin, Hsorted.
    apply in_app_or in Hin. destruct Hin as [Hin|[->|Hin]].
    + rewrite Forall_forall in Hbefore. now apply renders_returns, Hbefore.
    + lia.
    + apply StronglySorted_after in Hsorted.
      rewrite Forall_forall in Hsorted. specialize (Hsorted h Hin).
      unfold ascending in Hsorted. apply Z.leb_le in Hsorted. lia.
Qed.

Lemma chain_raises_for_lowest_ranked_failure_witness :
  exists g,
    In g [oracle_price; both_price; infinite_factor_price; fixed_price] /\
    renders g = false /\
    eval GasPriceSerializer.to_representation g = Raise InvalidOperation /\
    ((valid g = false /\
      InvalidOperation =
        APIException (GasPriceSerializer.not_provided (GasPrice.chain g)))
     \/ (is_oracle g = true /\
         quantizes 19 9 (gwei_factor g) = false /\
         InvalidOperation = InvalidOperation)) /\
    forall h,
      In h [oracle_price; both_price; infinite_factor_price; fixed_price] ->
      GasPrice.rank h < GasPrice.rank g ->
      renders h = true.
Proof.
  apply (chain_raises_for_lowest_ranked_failure
           (with_related
              [oracle_price; both_price; infinite_factor_price; fixed_price]
              [] [])
           InvalidOperation).
  reflexivity.
Defined.

(** X3. A chain without gas price records is always rendered, with an
    empty [gas_price] array. *)
Theorem chain_without_gas_prices (c : Chain.t) :
  Chain.gasprice_set c = [] ->
  exists out,
    eval ChainSerializer.to_representation c = Ok out /\
    member "gas_price" out = Some (JList []).
Proof.
  intros Hnone. rewrite ChainSerializer_eval, get_gas_price_eval, Hnone.
  simpl. eexists. split; reflexivity.
Qed.

Lemma chain_without_gas_prices_witness :
  exists out,
    eval ChainSerializer.to_representation (with_related [] [] []) = Ok out /\
    member "gas_price" out = Some (JList []).
Proof.
  apply (chain_without_gas_prices (with_related [] [] [])). reflexivity.
Defined.

(* ------------------------------------------------------------------ *)
(** ** Further properties: the shape of a gas price *)

(** X4. Whatever is rendered for a gas price record is one of two shapes:
    an "oracle" object whose [uri] is a non-empty string, for a record
    without a fixed value whose [gwei_factor] can be quantized, or a
    "fixed" object whose [wei_value] is the string of a non-zero integer,
    never "0", for a record without an oracle URI.  A record that raises
    either passes neither guard and raises the [APIException], or passes
    the oracle guard with a [gwei_factor] that cannot be quantized and
    raises [decimal.InvalidOperation]. *)
Theorem gas_price_representation_shape (g : GasPrice.t) :
  match eval GasPriceSerializer.to_representation g with
  | Ok j =>
      (exists uri,
          oracle_uri g = Some uri /\ uri <> "" /\
          fixed_wei_value g = None /\
          quantizes 19 9 (gwei_factor g) = true /\
          j = JObj [ ("type", JStr "oracle");
                     ("uri", JStr uri);
                     ("gas_parameter",
                       py_to_json (to_py (oracle_parameter g)));
                     ("gwei_factor", JDecimal (Some 9%nat) (gwei_factor g)) ])
      \/ (exists wei,
             fixed_wei_value g = Some wei /\ wei <> 0 /\
             oracle_uri g = None /\
             str_int wei <> "0" /\
             j = JObj [ ("type", JStr "fixed");
                        ("wei_value", JStr (str_int wei)) ])
  | Raise e =>
      (valid g = false /\
       e = APIException (GasPriceSerializer.not_provided (GasPrice.chain g)))
      \/ (exists uri,
             oracle_uri g = Some uri /\ uri <> "" /\
             fixed_wei_value g = None /\
             quantizes 19 9 (gwei_factor g) = false /\
             e = InvalidOperation)
  end.
Proof.
  rewrite GasPriceSerializer_eval. unfold valid, is_oracle, is_fixed.
  destruct g as [c [u|] p d [z|] r]; simpl;
    rewrite ?andb_false_r, ?andb_true_r; simpl; auto.
  - change (truthy (Some u)) with (negb (u =? "")%string).
    destruct (String.eqb_spec u ""); simpl; [auto|].
    destruct (quantizes 19 9 d) eqn:Hq.
    + left. exists u. auto.
    + right. exists u. auto.
  - change (truthy (Some z)) with (negb (z =? 0)).
    destruct (Z.eqb_spec z 0); simpl; [auto|].
    right. exists z. repeat split; auto.
    intros H. apply (str_int_inj z 0) in H. contradiction.
Qed.

(** X5. A record whose [fixed_wei_value] is zero, or whose [oracle_uri] is
    the empty string, raises whatever its other attributes are. *)
Theorem zero_or_blank_always_raises (g : GasPrice.t) :
  fixed_wei_value g = Some 0 \/ oracle_uri g = Some "" ->
  eval GasPriceSerializer.to_representation g =
    Raise (APIException
             (GasPriceSerializer.not_provided (GasPrice.chain g))).
Proof.
  rewrite GasPriceSerializer_eval. unfold is_oracle, is_fixed.
  intros [H|H]; rewrite H; simpl; rewrite andb_false_r; reflexivity.
Qed.

Lemma zero_or_blank_always_raises_witness :
  eval GasPriceSerializer.to_representation zero_with_oracle_price =
    Raise (APIException (GasPriceSerializer.not_provided rinkeby)).
Proof.
  apply (zero_or_blank_always_raises zero_with_oracle_price).
  left. reflexivity.
Defined.

(** X6. The [wei_value] of a fixed gas price reads back as the record's
    [fixed_wei_value]: the string loses nothing of the integer, however
    large. *)
Theorem wei_value_round_trip (g : GasPrice.t) (wei : Z) :
  fixed_wei_value g = Some wei ->
  wei <> 0 ->
  oracle_uri g = None ->
  exists out s,
    eval GasPriceSerializer.to_representation g = Ok out /\
    member "wei_value" out = Some (JStr s) /\
    parse_int s = Some wei.
Proof.
  intros Hf Hz Ho. rewrite GasPriceSerializer_eval.
  unfold is_oracle, is_fixed, fixed_object. rewrite Hf, Ho. simpl.
  change (truthy (Some wei)) with (negb (wei =? 0)).
  destruct (Z.eqb_spec wei 0) as [E|_]; [contradiction|]. simpl.
  eexists. exists (str_int wei). repeat split.
  apply parse_int_str_int.
Qed.

Lemma wei_value_round_trip_witness :
  exists out s,
    eval GasPriceSerializer.to_representation max_uint256_price = Ok out /\
    member "wei_value" out = Some (JStr s) /\
    parse_int s = Some max_uint256.
Proof.
  apply (wei_value_round_trip max_uint256_price max_uint256);
    [reflexivity | discriminate | reflexivity].
Defined.

(** X7. An oracle record without an [oracle_parameter] whose [gwei_factor]
    can be quantized is still rendered: its [gas_parameter] member is
    null. *)
Theorem oracle_without_parameter (g : GasPrice.t) (uri : string) :
  oracle_uri g = Some uri ->
  uri <> "" ->
  fixed_wei_value g = None ->
  oracle_parameter g = None ->
  quantizes 19 9 (gwei_factor g) = true ->
  exists out,
    eval GasPriceSerializer.to_representation g = Ok out /\
    member "type" out = Some (JStr "oracle") /\
    member "gas_parameter" out = Some JNull.
Proof.
  intros Ho Hu Hf Hp Hq. rewrite GasPriceSerializer_eval, Hq.
  unfold is_oracle, oracle_object. rewrite Ho, Hf, Hp. simpl.
  change (truthy (Some uri)) with (negb (uri =? "")%string).
  destruct (String.eqb_spec uri ""); [contradiction|]. simpl.
  eexists. repeat split.
Qed.

Lemma oracle_without_parameter_witness :
  exists out,
    eval GasPriceSerializer.to_representation bare_oracle_price = Ok out /\
    member "type" out = Some (JStr "oracle") /\
    member "gas_parameter" out = Some JNull.
Proof.
  apply (oracle_without_parameter bare_oracle_price "https://gas.example/api");
    [reflexivity | discriminate | reflexivity | reflexivity | reflexivity].
Defined.

(* ------------------------------------------------------------------ *)
(** ** Further properties: the order of the arrays *)

(** Two sorted lists with the same elements are the same list, when the
    order tells the elements apart. *)
Lemma sorted_perm_eq {A} (R : A -> A -> Prop) (l1 : list A) :
  forall l2,
    (forall a b, In a l1 -> In b l1 -> R a b -> R b a -> a = b) ->
    StronglySorted R l1 -> StronglySorted R l2 -> Permutation l1 l2 ->
    l1 = l2.
Proof.
  induction l1 as [|a l1 IH]; intros l2 Hanti H1 H2 Hperm.
  - apply Permutation_nil in Hperm. now subst.
  - destruct l2 as [|b l2].
    + apply Permutation_sym, Permutation_nil in Hperm. discriminate.
    + apply StronglySorted_inv in H1. destruct H1 as [H1 Ha].
      apply StronglySorted_inv in H2. destruct H2 as [H2 Hb].
      rewrite Forall_forall in Ha, Hb.
      assert (a = b) as <-.
      { assert (Hin_a : In a (b :: l2))
          by (eapply Permutation_in; [exact Hperm|now left]).
        assert (Hin_b : In b (a :: l1))
          by (eapply Permutation_in;
              [apply Permutation_sym, Hperm|now left]).
        destruct Hin_a as [->|Hin_a]; [reflexivity|].
        destruct Hin_b as [->|Hin_b]; [reflexivity|].
        apply Hanti; [now left|now right|now apply Ha|now apply Hb]. }
      f_equal. apply IH; auto.
      * intros x y Hx Hy. apply Hanti; now right.
      * eapply Permutation_cons_inv. exact Hperm.
Qed.

Lemma insert_by_map {A K} (field : A -> K) (leb : K -> K -> bool) x l :
  map field (insert_by field leb x l) =
    insert_by (fun k => k) leb (field x) (map field l).
Proof.
  induction l as [|y rest IH]; simpl; [reflexivity|].
  destruct (leb (field x) (field y)); simpl; [reflexivity|].
  now rewrite IH.
Qed.

Lemma order_by_map {A K} (field : A -> K) (leb : K -> K -> bool) l :
  map field (order_by field leb l) =
    order_by (fun k => k) leb (map field l).
Proof.
  induction l as [|x rest IH]; simpl; [reflexivity|].
  now rewrite insert_by_map, IH.
Qed.

(** The array of keys depends on the keys of the query alone, not on the
    order the query hands them over in. *)
Lemma key_array_Permutation {A} (key : A -> string) (l1 l2 : list A) :
  Permutation (map key l1) (map key l2) ->
  key_array key l1 = key_array key l2.
Proof.
  intros Hperm. unfold key_array. f_equal.
  rewrite <- !(map_map key JStr), !order_by_map. f_equal.
  apply (sorted_perm_eq (ascending (fun k : string => k) String.leb)).
  - intros a b _ _. apply String.leb_antisym.
  - apply order_by_sorted; [apply String.leb_total|apply string_leb_trans].
  - apply order_by_sorted; [apply String.leb_total|apply string_leb_trans].
  - eapply perm_trans; [apply Permutation_sym, order_by_Permutation|].
    eapply perm_trans; [exact Hperm|apply order_by_Permutation].
Qed.

(** X8. The [disabled_wallets] and [features] arrays do not depend on the
    order in which the queries return the records: two chains whose
    wallets, and whose features, have the same keys in any order get the
    same arrays. *)
Theorem key_arrays_ignore_query_order (c1 c2 : Chain.t) :
  Permutation (map Wallet.key (Chain.get_disabled_wallets c1))
              (map Wallet.key (Chain.get_disabled_wallets c2)) ->
  Permutation (map Feature.key (Chain.feature_set c1))
              (map Feature.key (Chain.feature_set c2)) ->
  eval ChainSerializer.get_disabled_wallets c1 =
    eval ChainSerializer.get_disabled_wallets c2 /\
  eval ChainSerializer.get_features c1 =
    eval ChainSerializer.get_features c2.
Proof.
  intros Hw Hf. unfold eval.
  rewrite !get_disabled_wallets_run, !get_features_run. simpl.
  now rewrite (key_array_Permutation _ _ _ Hw),
              (key_array_Permutation _ _ _ Hf).
Qed.

Lemma key_arrays_ignore_query_order_witness :
  eval ChainSerializer.get_disabled_wallets
       (with_related [] [Wallet.mk "ledger"; Wallet.mk "trezor"]
                     [Feature.mk "SAFE_APPS"; Feature.mk "ERC721"]) =
    eval ChainSerializer.get_disabled_wallets
         (with_related [] [Wallet.mk "trezor"; Wallet.mk "ledger"]
                       [Feature.mk "ERC721"; Feature.mk "SAFE_APPS"]) /\
  eval ChainSerializer.get_features
       (with_related [] [Wallet.mk "ledger"; Wallet.mk "trezor"]
                     [Feature.mk "SAFE_APPS"; Feature.mk "ERC721"]) =
    eval ChainSerializer.get_features
         (with_related [] [Wallet.mk "trezor"; Wallet.mk "ledger"]
                       [Feature.mk "ERC721"; Feature.mk "SAFE_APPS"]).
Proof.
  apply (key_arrays_ignore_query_order
           (with_related [] [Wallet.mk "ledger"; Wallet.mk "trezor"]
                         [Feature.mk "SAFE_APPS"; Feature.mk "ERC721"])
           (with_related [] [Wallet.mk "trezor"; Wallet.mk "ledger"]
                         [Feature.mk "ERC721"; Feature.mk "SAFE_APPS"]));
    simpl; apply perm_swap.
Defined.

Lemma NoDup_map_In_inj {A B} (f : A -> B) (l : list A) a b :
  NoDup (map f l) -> In a l -> In b l -> f a = f b -> a = b.
Proof.
  induction l as [|x rest IH]; simpl; [contradiction|].
  intros Hnd Ha Hb Hab. apply NoDup_cons_iff in Hnd.
  destruct Hnd as [Hx Hnd].
  destruct Ha as [->|Ha], Hb as [->|Hb]; auto.
  - exfalso. apply Hx. rewrite Hab. now apply in_map.
  - exfalso. apply Hx. rewrite <- Hab. now apply in_map.
Qed.

(** X9. When the ranks of a chain's gas price records are all different,
    the [gas_price] array does not depend on the order in which the query
    returns the records. *)
Theorem gas_price_ignores_query_order (c1 c2 : Chain.t) :
  Permutation (Chain.gasprice_set c1) (Chain.gasprice_set c2) ->
  NoDup (map GasPrice.rank (Chain.gasprice_set c1)) ->
  eval ChainSerializer.get_gas_price c1 =
    eval ChainSerializer.get_gas_price c2.
Proof.
  intros Hperm Hranks. rewrite !get_gas_price_eval.
  replace (order_by GasPrice.rank Z.leb (Chain.gasprice_set c2))
    with (order_by GasPrice.rank Z.leb (Chain.gasprice_set c1));
    [reflexivity|].
  apply (sorted_perm_eq (ascending GasPrice.rank Z.leb)).
  - intros a b Ha Hb Hab Hba. unfold ascending in *.
    apply Z.leb_le in Hab, Hba.
    apply (NoDup_map_In_inj GasPrice.rank (Chain.gasprice_set c1));
      [exact Hranks| | |lia];
      (eapply Permutation_in;
       [apply Permutation_sym,
          (order_by_Permutation GasPrice.rank Z.leb)|eassumption]).
  - apply order_by_sorted; [apply Z_leb_total|apply Z_leb_trans].
  - apply order_by_sorted; [apply Z_leb_total|apply Z_leb_trans].
  - eapply perm_trans; [apply Permutation_sym, order_by_Permutation|].
    eapply perm_trans; [exact Hperm|apply order_by_Permutation].
Qed.

Lemma gas_price_ignores_query_order_witness :
  eval ChainSerializer.get_gas_price
       (with_related [oracle_price; fixed_price] [] []) =
    eval ChainSerializer.get_gas_price
         (with_related [fixed_price; oracle_price] [] []).
Proof.
  apply (gas_price_ignores_query_order
           (with_related [oracle_price; fixed_price] [] [])
           (with_related [fixed_price; oracle_price] [] [])).
  - simpl. apply perm_swap.
  - simpl. repeat constructor; simpl; intuition discriminate.
Defined.

(* ------------------------------------------------------------------ *)
(** ** Further properties: the members of a chain *)

(** X10. The [chain_id] member of a rendered chain reads back as the
    chain's id, so that chains with different ids never share a
    [chain_id]. *)
Theorem chain_id_round_trip (c : Chain.t) (out : Json) :
  eval ChainSerializer.to_representation c = Ok out ->
  exists s,
    member "chain_id" out = Some (JStr s) /\
    parse_int s = Some (Chain.id c).
Proof.
  rewrite ChainSerializer_eval.
  destruct (eval ChainSerializer.get_gas_price c); [|discriminate].
  intros [= <-]. exists (str_int (Chain.id c)).
  split; [reflexivity|apply parse_int_str_int].
Qed.

Lemma chain_id_round_trip_witness :
  exists s,
    member "chain_id" (chain_object (with_related [] [] []) (JList [])) =
      Some (JStr s) /\
    parse_int s = Some 4.
Proof.
  apply (chain_id_round_trip (with_related [] [] [])
           (chain_object (with_related [] [] []) (JList []))).
  reflexivity.
Defined.

(** X11. In a rendered chain each nested object carries the attributes its
    serializer names: [rpc_uri] the RPC authentication and URI,
    [safe_apps_rpc_uri] those of the Safe Apps RPC,
    [block_explorer_uri_template] the three explorer templates,
    [native_currency] the currency's name,
    symbol, decimals (a number) and logo URL (null without a logo), and
    [theme] the two colours. *)
Theorem chain_nested_objects (c : Chain.t) (out : Json) :
  eval ChainSerializer.to_representation c = Ok out ->
  member "rpc_uri" out =
    Some (JObj [ ("authentication", JStr (Chain.rpc_authentication c));
                 ("value", JStr (Chain.rpc_uri c)) ]) /\
  member "safe_apps_rpc_uri" out =
    Some (JObj [ ("authentication",
                   JStr (Chain.safe_apps_rpc_authentication c));
                 ("value", JStr (Chain.safe_apps_rpc_uri c)) ]) /\
  member "block_explorer_uri_template" out =
    Some (JObj [ ("address",
                   JStr (Chain.block_explorer_uri_address_template c));
                 ("tx_hash",
                   JStr (Chain.block_explorer_uri_tx_hash_template c));
                 ("api", JStr (Chain.block_explorer_uri_api_template c)) ]) /\
  member "native_currency" out =
    Some (JObj [ ("name", JStr (Chain.currency_name c));
                 ("symbol", JStr (Chain.currency_symbol c));
                 ("decimals", JInt (Chain.currency_decimals c));
                 ("logo_uri",
                   match Chain.currency_logo_uri c with
                   | Some url => JStr url
                   | None => JNull
                   end) ]) /\
  member "theme" out =
    Some (JObj [ ("text_color", JStr (Chain.theme_text_color c));
                 ("background_color",
                   JStr (Chain.theme_background_color c)) ]).
Proof.
  rewrite ChainSerializer_eval.
  destruct (eval ChainSerializer.get_gas_price c); [|discriminate].
  intros [= <-]. repeat split.
  simpl. now destruct (Chain.currency_logo_uri c).
Qed.

Lemma chain_nested_objects_witness :
  member "rpc_uri" (chain_object (with_related [] [] []) (JList [])) =
    Some (JObj [ ("authentication", JStr "API_KEY_PATH");
                 ("value", JStr "https://rinkeby.example/v3/") ]) /\
  member "safe_apps_rpc_uri" (chain_object (with_related [] [] []) (JList [])) =
    Some (JObj [ ("authentication", JStr "NO_AUTHENTICATION");
                 ("value", JStr "https://apps.rinkeby.example/") ]) /\
  member "block_explorer_uri_template"
         (chain_object (with_related [] [] []) (JList [])) =
    Some (JObj [ ("address", JStr "https://scan.example/address/{{address}}");
                 ("tx_hash", JStr "https://scan.example/tx/{{txHash}}");
                 ("api", JStr "https://api.scan.example/api") ]) /\
  member "native_currency" (chain_object (with_related [] [] []) (JList [])) =
    Some (JObj [ ("name", JStr "Ether");
                 ("symbol", JStr "ETH");
                 ("decimals", JInt 18);
                 ("logo_uri", JNull) ]) /\
  member "theme" (chain_object (with_related [] [] []) (JList [])) =
    Some (JObj [ ("text_color", JStr "#ffffff");
                 ("background_color", JStr "#e8673c") ]).
Proof.
  apply (chain_nested_objects (with_related [] [] [])
           (chain_object (with_related [] [] []) (JList []))).
  reflexivity.
Defined.

(** X12. In a rendered chain the plain members carry the attributes their
    fields name: [chain_name] the name, [short_name], [description], [l2]
    (a boolean) and [recommended_master_copy_version] the attributes of
    the same name, and [transaction_service], [vpc_transaction_service]
    and [ens_registry_address] the string of their attribute, or null when
    the attribute is [None], with or without a declared default. *)
Theorem chain_plain_members (c : Chain.t) (out : Json) :
  eval ChainSerializer.to_representation c = Ok out ->
  let nullable o := match o with Some s => JStr s | None => JNull end in
  member "chain_name" out = Some (JStr (Chain.name c)) /\
  member "short_name" out = Some (JStr (Chain.short_name c)) /\
  member "description" out = Some (JStr (Chain.description c)) /\
  member "l2" out = Some (JBool (Chain.l2 c)) /\
  member "transaction_service" out =
    Some (nullable (Chain.transaction_service_uri c)) /\
  member "vpc_transaction_service" out =
    Some (nullable (Chain.vpc_transaction_service_uri c)) /\
  member "ens_registry_address" out =
    Some (nullable (Chain.ens_registry_address c)) /\
  member "recommended_master_copy_version" out =
    Some (JStr (Chain.recommended_master_copy_version c)).
Proof.
  rewrite ChainSerializer_eval.
  destruct (eval ChainSerializer.get_gas_price c); [|discriminate].
  intros [= <-]. simpl. repeat split.
  - now destruct (Chain.transaction_service_uri c).
  - now destruct (Chain.vpc_transaction_service_uri c).
  - now destruct (Chain.ens_registry_address c).
Qed.

Lemma chain_plain_members_witness :
  let out := chain_object (with_related [] [] []) (JList []) in
  member "chain_name" out = Some (JStr "Rinkeby") /\
  member "short_name" out = Some (JStr "rin") /\
  member "description" out = Some (JStr "Test network") /\
  member "l2" out = Some (JBool false) /\
  member "transaction_service" out = Some JNull /\
  member "vpc_transaction_service" out = Some JNull /\
  member "ens_registry_address" out = Some JNull /\
  member "recommended_master_copy_version" out = Some (JStr "1.3.0").
Proof.
  apply (chain_plain_members (with_related [] [] [])
           (chain_object (with_related [] [] []) (JList []))).
  reflexivity.
Defined.
